(** * EnglishWordFrequencyAnalyzer: the frequency counter, the part-of-speech
      filter and the file loader, embedded from the Python sources.

    - [src/analyzer/counter.py]      -> [Module WordCounter]
    - [src/analyzer/pos_filter.py]   -> [Module POSFilter]
    - [src/analyzer/file_loader.py]  -> [Module FileLoader]

    Python's [dict] keeps its entries in insertion order and
    [collections.Counter] is a [dict] subclass, so a table is modelled as
    an association list in insertion order: the order is observable through
    [Counter.most_common], whose sort is stable.  Counts are Python [int]s,
    hence [Z].  Words are [string]s. *)

From Stdlib Require Import ZArith Lia List Ascii String Sorted.
From stdpp Require Import base tactics option list strings sorting gmap.

Local Open Scope Z_scope.

(** ** Python's insertion-ordered [dict] with string keys *)

Module PyDict.
Abbreviation dict V := (list (string * V)) (only parsing).

Section dict.
Context {V : Type}.
Implicit Types d other : dict V.

Definition keys d : list string := d.*1.
Definition values d : list V := d.*2.

(** [d.get(k)]: the value stored under [k], [None] when [k] is no key. *)
Fixpoint get (k : string) d : option V :=
  match d with
  | [] => None
  | (k', v) :: d' => if decide (k = k') then Some v else get k d'
  end.

(** [d[k] = v]: an existing key keeps its position and takes the new
    value, a new key is appended after all others. *)
Fixpoint set (k : string) (v : V) d : dict V :=
  match d with
  | [] => [(k, v)]
  | (k', v') :: d' =>
      if decide (k = k') then (k, v) :: d' else (k', v') :: set k v d'
  end.

(** [dict.update(d, other)]: [d[k] = v] for the items of [other] in
    order. *)
Definition update d other : dict V :=
  fold_left (fun acc kv => set kv.1 kv.2 acc) other d.

(** What makes an association list a [dict]: no key occurs twice. *)
Definition wf d : Prop := NoDup (keys d).
End dict.
End PyDict.

(** ** [collections.Counter] over words *)

Module Counter.
Import PyDict.

Abbreviation t := (dict Z) (only parsing).

(** [Counter()] *)
Definition empty : t := [].

(** [c.get(elem, 0)], also what [c[elem]] gives: a missing word counts
    zero. *)
Definition get0 (elem : string) (c : t) : Z := default 0 (get elem c).

(** One step of [_count_elements]:
    [mapping[elem] = mapping.get(elem, 0) + 1]. *)
Definition incr (c : t) (elem : string) : t := set elem (get0 elem c + 1) c.

(** [Counter(words)]: [_count_elements] run over [words] from the empty
    table. *)
Definition of_list (words : list string) : t := fold_left incr words empty.

(** [bool(c)]: a table is truthy when it has an entry. *)
Definition truthy (c : t) : bool :=
  match c with [] => false | _ :: _ => true end.

(** One step of the summing loop of [Counter.update]:
    [self[elem] = count + self.get(elem, 0)]. *)
Definition add_item (self : t) (item : string * Z) : t :=
  set item.1 (item.2 + get0 item.1 self) self.

(** [self.update(other)] for a mapping [other] that is a different
    object from [self]: counts are added, never replaced.  An empty
    [self] takes the fast path [dict.update]. *)
Definition update (self other : t) : t :=
  if truthy self then fold_left add_item other self
  else PyDict.update self other.

(** [sum(c.values())] *)
Definition total (c : t) : Z := foldr Z.add 0 (values c).
End Counter.

(** ** Strings, [str.lower] and [str.upper]

    A Python string is modelled by the [string] of the bytes of its UTF-8
    form: an ASCII character is one character of the model, and two
    strings are equal when their models are.  The words reaching the
    counter went through [TextProcessor.clean_text], which keeps the
    letters [a-zA-Z] only.  [str.lower] is modelled by its action on ASCII
    text: [A]..[Z] move to [a]..[z], and the bytes of every other
    character stay, which is also what [str.lower] does to a character
    that has no other lowercase form, the sharp s among them.  [str.upper]
    is modelled on the characters below U+0100.  The statements that
    depend on the characters of a string say which strings they are
    about. *)

Module PyStr.
Definition is_upper (a : ascii) : bool :=
  let n := nat_of_ascii a in ((65 <=? n)%nat && (n <=? 90)%nat)%bool.

Definition lower_char (a : ascii) : ascii :=
  if is_upper a then ascii_of_nat (nat_of_ascii a + 32) else a.

Definition upper_char (a : ascii) : ascii :=
  let n := nat_of_ascii a in
  if ((97 <=? n)%nat && (n <=? 122)%nat)%bool
  then ascii_of_nat (n - 32) else a.

(** [s.lower()] *)
Fixpoint lower (s : string) : string :=
  match s with
  | EmptyString => EmptyString
  | String a s' => String (lower_char a) (lower s')
  end.

(** [s.upper()]: [a]..[z] move to [A]..[Z].  Of the characters from U+0080
    to U+00FF, two bytes each, the first of them 194 or 195: the letters
    from U+00E0 to U+00FE move to those from U+00C0 to U+00DE (the
    division sign U+00F7 stays), the sharp s U+00DF becomes [SS], U+00FF
    becomes U+0178 and the micro sign U+00B5 becomes U+039C. *)
Fixpoint upper (s : string) : string :=
  match s with
  | EmptyString => EmptyString
  | String a s' =>
      match s' with
      | EmptyString => String (upper_char a) EmptyString
      | String b rest =>
          let m := nat_of_ascii a in
          let n := nat_of_ascii b in
          if ((m =? 195) && (n =? 159))%nat%bool then
            String "S" (String "S" (upper rest))
          else if ((m =? 195) && (n =? 191))%nat%bool then
            String (ascii_of_nat 197) (String (ascii_of_nat 184) (upper rest))
          else if ((m =? 195) && (160 <=? n) && (n <=? 190)
                   && negb (n =? 183))%nat%bool then
            String a (String (ascii_of_nat (n - 32)) (upper rest))
          else if ((m =? 194) && (n =? 181))%nat%bool then
            String (ascii_of_nat 206) (String (ascii_of_nat 156) (upper rest))
          else String (upper_char a) (upper s')
      end
  end.

(** Some character of [s] is an uppercase letter. *)
Fixpoint has_upper (s : string) : bool :=
  match s with
  | EmptyString => false
  | String a s' => (is_upper a || has_upper s')%bool
  end.

(** [s.endswith(suffix)] *)
Definition endswith (s suffix : string) : bool :=
  let n := String.length s in
  let m := String.length suffix in
  ((m <=? n)%nat && String.eqb (substring (n - m) m s) suffix)%bool.
End PyStr.

(** ** Sorting and ranking a table *)

Module Ranking.
(** [sorted(items, key=itemgetter(1), reverse=True)].  Python's sort is
    stable, also with [reverse=True]: items with equal counts keep the
    order they had in [items].  An item is placed before the first item
    whose count does not exceed its own. *)
Fixpoint insert_desc (item : string * Z) (sorted : list (string * Z))
  : list (string * Z) :=
  match sorted with
  | [] => [item]
  | x :: rest =>
      if x.2 <=? item.2 then item :: x :: rest
      else x :: insert_desc item rest
  end.

Definition sorted_desc (items : list (string * Z)) : list (string * Z) :=
  foldr insert_desc [] items.

(** [heapq.nlargest(n, items, key=itemgetter(1))], which is
    [sorted(items, key=..., reverse=True)[:n]] for [n >= 0] and the empty
    list for a negative [n]. *)
Definition nlargest (n : Z) (items : list (string * Z))
  : list (string * Z) :=
  take (Z.to_nat n) (sorted_desc items).

(** [Counter.most_common(n)]: [n=None] ranks every entry. *)
Definition most_common (n : option Z) (c : Counter.t)
  : list (string * Z) :=
  match n with
  | None => sorted_desc c
  | Some n => nlargest n c
  end.

(** [words.index(w)], with [len(words)] when [w] does not occur. *)
Fixpoint first_index (w : string) (words : list string) : nat :=
  match words with
  | [] => O
  | w' :: rest => if decide (w = w') then O else S (first_index w rest)
  end.
End Ranking.

(** ** Numbers and summaries

    [sum(frequencies) / len(frequencies)] is Python's true division of two
    [int]s and gives a [float]; the floats are a type parameter and the
    division is a parameter of the functions that use it. *)

Module PyNum.
(** An [int], or a [float]. *)
Inductive number (F : Type) : Type :=
| Int (z : Z)
| Float (x : F).
Arguments Int {F} z.
Arguments Float {F} x.

(** [max(xs)] and [min(xs)] of a list that starts with [x]. *)
Definition max_of (x : Z) (xs : list Z) : Z := fold_left Z.max xs x.
Definition min_of (x : Z) (xs : list Z) : Z := fold_left Z.min xs x.

(** [xs[:n]]: the first [n] elements, and for a negative [n] all but the
    last [-n]. *)
Definition slice_to {A : Type} (n : Z) (xs : list A) : list A :=
  if 0 <=? n then take (Z.to_nat n) xs
  else take (length xs - Z.to_nat (- n)) xs.
End PyNum.

(** The dictionary that [WordCounter.get_statistics] returns, one field
    per key. *)
Module Statistics.
Record t (F : Type) : Type := mk {
  total_words : Z;
  unique_words : Z;
  avg_frequency : PyNum.number F;
  max_frequency : Z;
  min_frequency : Z;
  most_common_word : option (string * Z)
}.
Arguments mk {F}.
Arguments total_words {F}.
Arguments unique_words {F}.
Arguments avg_frequency {F}.
Arguments max_frequency {F}.
Arguments min_frequency {F}.
Arguments most_common_word {F}.
End Statistics.

(** ** [class WordCounter]

    The average of [get_statistics] is a floating-point number: the
    division that gives it is a parameter. *)

Module WordCounter.
Import PyDict.

Record t : Type := mk { word_counts : Counter.t; total_words : Z }.

(** [__init__] *)
Definition init : t := mk Counter.empty 0.

(** [count_words(words)]: the returned table and the object afterwards.
    The empty list returns a fresh [Counter()] before any attribute is
    assigned. *)
Definition count_words (words : list string) (self : t) : Counter.t * t :=
  match words with
  | [] => (Counter.empty, self)
  | _ :: _ =>
      let self1 := mk (Counter.of_list words) (total_words self) in
      let self2 := mk (word_counts self1) (Z.of_nat (length words)) in
      (word_counts self2, self2)
  end.

(** [get_most_common(n)], [n] defaulting to 10. *)
Definition get_most_common (n : Z) (self : t) : list (string * Z) :=
  Ranking.most_common (Some n) (word_counts self).

(** [get_word_frequency(word)]; [word.lower()] is [PyStr.lower], which is
    [str.lower] on a word of ASCII characters. *)
Definition get_word_frequency (word : string) (self : t) : Z :=
  Counter.get0 (PyStr.lower word) (word_counts self).

(** [get_total_unique_words()] *)
Definition get_total_unique_words (self : t) : Z :=
  Z.of_nat (length (word_counts self)).

(** [get_total_words()] *)
Definition get_total_words (self : t) : Z := total_words self.

(** The body of the loop of [filter_by_frequency]. *)
Definition filter_step (min_freq : Z) (max_freq : option Z)
    (filtered_words : dict Z) (item : string * Z) : dict Z :=
  let '(word, count) := item in
  if min_freq <=? count then
    match max_freq with
    | None => set word count filtered_words
    | Some m =>
        if count <=? m then set word count filtered_words
        else filtered_words
    end
  else filtered_words.

(** [filter_by_frequency(min_freq, max_freq)] *)
Definition filter_by_frequency (min_freq : Z) (max_freq : option Z)
    (self : t) : dict Z :=
  fold_left (filter_step min_freq max_freq) (word_counts self) [].

(** [to_dict()] *)
Definition to_dict (self : t) : dict Z := word_counts self.

(** [merge_counts(other_counter)] when [other_counter] is another
    object than [self]; [Heap.merge_counts] below is the method on
    references. *)
Definition merge_counts (self other : t) : t :=
  if Counter.truthy (word_counts other) then
    let self1 :=
      mk (Counter.update (word_counts self) (word_counts other))
         (total_words self) in
    mk (word_counts self1) (total_words self1 + total_words other)
  else self.

(** [clear()] *)
Definition clear (self : t) : t := mk Counter.empty 0.

(** The body of the loop of [get_words_by_length]; [len(word)] is the
    number of characters of the word, which is the length of the string for
    a word of ASCII characters. *)
Definition length_step (min_length : Z) (max_length : option Z)
    (filtered_words : dict Z) (item : string * Z) : dict Z :=
  let '(word, count) := item in
  let word_len := Z.of_nat (String.length word) in
  if min_length <=? word_len then
    match max_length with
    | None => set word count filtered_words
    | Some m =>
        if word_len <=? m then set word count filtered_words
        else filtered_words
    end
  else filtered_words.

(** [get_words_by_length(min_length, max_length)] *)
Definition get_words_by_length (min_length : Z) (max_length : option Z)
    (self : t) : dict Z :=
  fold_left (length_step min_length max_length) (word_counts self) [].

Section statistics.
Context {F : Type}.
(** [a / b] on two [int]s. *)
Variable truediv : Z -> Z -> F.

(** [get_statistics()] *)
Definition get_statistics (self : t) : Statistics.t F :=
  match word_counts self with
  | [] => Statistics.mk 0 0 (PyNum.Int 0) 0 0 None
  | item :: rest =>
      let frequencies := values (word_counts self) in
      let most_common := Ranking.most_common (Some 1) (word_counts self) in
      Statistics.mk
        (total_words self)
        (Z.of_nat (length (word_counts self)))
        (PyNum.Float (truediv (foldr Z.add 0 frequencies)
                              (Z.of_nat (length frequencies))))
        (PyNum.max_of item.2 (values rest))
        (PyNum.min_of item.2 (values rest))
        (head most_common)
  end.
End statistics.
End WordCounter.

(** ** Counters as objects

    A [WordCounter] is a mutable object and [a.merge_counts(b)] receives a
    reference, which may be [a] itself.  The heap holds the counter
    objects; a reference is an index into it.  The [Counter] of a
    [WordCounter] is created by [__init__] or [count_words] and only
    mutated in place afterwards, so no two counters share one and it is
    kept inline in its owner. *)

Module Heap.
Import WordCounter.

Abbreviation ref := nat (only parsing).
Abbreviation heap := (list WordCounter.t) (only parsing).

Definition set_word_counts (c : Counter.t) (o : WordCounter.t) : WordCounter.t :=
  mk c (total_words o).
Definition set_total_words (n : Z) (o : WordCounter.t) : WordCounter.t :=
  mk (word_counts o) n.

(** [WordCounter()] *)
Definition new (h : heap) : ref * heap := (length h, h ++ [WordCounter.init]).

(** The summing loop of [Counter.update],
    [for elem, count in other.items(): self[elem] = count + self.get(elem, 0)],
    on the live objects: the item at position [pos] is read from
    [other] as it is at that moment.  A [dict] that changes size under
    iteration raises, so the loop makes at most as many steps as [other]
    had items when it began. *)
Fixpoint update_loop (fuel pos : nat) (self other : ref) (h : heap) : heap :=
  match fuel with
  | O => h
  | S fuel' =>
      match h !! self, h !! other with
      | Some a, Some b =>
          match word_counts b !! pos with
          | Some item =>
              update_loop fuel' (S pos) self other
                (<[self := set_word_counts
                             (Counter.add_item (word_counts a) item) a]> h)
          | None => h
          end
      | _, _ => h
      end
  end.

(** [self.word_counts.update(other.word_counts)] *)
Definition counter_update (self other : ref) (h : heap) : heap :=
  match h !! self, h !! other with
  | Some a, Some b =>
      if Counter.truthy (word_counts a)
      then update_loop (length (word_counts b)) 0 self other h
      else <[self := set_word_counts
                       (PyDict.update (word_counts a) (word_counts b)) a]> h
  | _, _ => h
  end.

(** [self.merge_counts(other)]; the addition to [total_words] reads
    [other] after the tables were merged. *)
Definition merge_counts (self other : ref) (h : heap) : heap :=
  match h !! other with
  | Some b =>
      if Counter.truthy (word_counts b) then
        let h1 := counter_update self other h in
        match h1 !! self, h1 !! other with
        | Some a1, Some b1 =>
            <[self := set_total_words (total_words a1 + total_words b1) a1]> h1
        | _, _ => h1
        end
      else h
  | None => h
  end.

(** [self.count_words(words)] *)
Definition count_words (words : list string) (self : ref) (h : heap)
  : Counter.t * heap :=
  match h !! self with
  | Some a =>
      let '(result, a') := WordCounter.count_words words a in
      (result, <[self := a']> h)
  | None => (Counter.empty, h)
  end.

(** [self.clear()] *)
Definition clear (self : ref) (h : heap) : heap :=
  match h !! self with
  | Some a => <[self := WordCounter.clear a]> h
  | None => h
  end.

(** The operations a client can perform on counters. *)
Inductive call : Type :=
| New
| CountWords (self : ref) (words : list string)
| MergeCounts (self other : ref)
| Clear (self : ref).

Definition exec (c : call) (h : heap) : heap :=
  match c with
  | New => (new h).2
  | CountWords self words => (count_words words self h).2
  | MergeCounts self other => merge_counts self other h
  | Clear self => clear self h
  end.

(** The heaps a program reaches from no counter at all. *)
Inductive reachable : heap -> Prop :=
| reach_start : reachable []
| reach_call h c : reachable h -> reachable (exec c h).

(** A straight-line program: the calls in order, from the empty heap. *)
Definition run (calls : list call) : heap :=
  fold_left (fun h c => exec c h) calls [].
End Heap.

(** ** [class POSFilter] *)

Module POSFilter.
Record t : Type := mk { enabled : bool; allowed_pos_tags : gset string }.

(** [__init__(enabled)]; the download of the tagger data that an enabled
    filter triggers leaves the object as it is. *)
Definition init (enabled : bool) : t := mk enabled ∅.

(** [set_allowed_pos_tags(pos_tags)] *)
Definition set_allowed_pos_tags (pos_tags : list string) (self : t) : t :=
  mk (enabled self) (list_to_set pos_tags).

(** [enable_filter(pos_tags)]: an absent or empty list keeps the tags. *)
Definition enable_filter (pos_tags : option (list string)) (self : t) : t :=
  let self1 := mk true (allowed_pos_tags self) in
  match pos_tags with
  | Some ((_ :: _) as tags) => set_allowed_pos_tags tags self1
  | _ => self1
  end.

(** [disable_filter()] *)
Definition disable_filter (self : t) : t := mk false ∅.

(** [is_enabled()] *)
Definition is_enabled (self : t) : bool := enabled self.

(** What [filter_by_pos] prints. *)
Inductive message : Type := FilterFailed (e : string).

Section tagger.
(** [nltk.pos_tag]: the tagged words, or the text of the exception it
    raised. *)
Variable pos_tag : list string -> list (string * string) + string.

(** [filter_by_pos(words)]: the returned list and what was printed. *)
Definition filter_by_pos (words : list string) (self : t)
  : list string * list message :=
  if (negb (enabled self)
      || bool_decide (allowed_pos_tags self = ∅))%bool
  then (words, [])
  else
    match words with
    | [] => ([], [])
    | _ :: _ =>
        match pos_tag words with
        | inl pos_tagged =>
            ((filter (fun wp => wp.2 ∈ allowed_pos_tags self)
                     pos_tagged).*1, [])
        | inr e => (words, [FilterFailed e])
        end
    end.
End tagger.

(** What [get_pos_tags] prints. *)
Inductive tagging_message : Type := TaggingFailed (e : string).

Section tagging.
Variable pos_tag : list string -> list (string * string) + string.

(** [get_pos_tags(words)]: the returned pairs and what was printed. *)
Definition get_pos_tags (words : list string) (self : t)
  : list (string * string) * list tagging_message :=
  if (negb (enabled self)
      || match words with [] => true | _ :: _ => false end)%bool
  then ((fun word => (word, "N/A")) <$> words, [])
  else
    match pos_tag words with
    | inl pos_tagged => (pos_tagged, [])
    | inr e => ((fun word => (word, "ERROR")) <$> words, [TaggingFailed e])
    end.
End tagging.

(** [get_allowed_pos_tags()]: a copy of the set. *)
Definition get_allowed_pos_tags (self : t) : gset string :=
  allowed_pos_tags self.
End POSFilter.

(** ** [class FileLoader] *)

Module FileLoader.
Import PyDict.

(** What [open(path, 'r', encoding=...)] followed by [file.read()]
    comes to. *)
Inductive read_result : Type :=
| Content (text : string)
| UnicodeDecodeError (e : string)
| OtherError (e : string).

(** A directory entry, with the outcome of reading it under each of the
    two encodings the loader tries. *)
Record entry : Type := mk_entry {
  name : string;
  read_utf8 : read_result;
  read_gbk : read_result
}.

(** The file system as the loader sees it: [os.path.exists] and the
    entries under a path (none when the path is no directory). *)
Record filesystem : Type := mk_fs {
  path_exists : string -> bool;
  listdir : string -> list entry
}.

(** [Path(directory).glob("*.txt")]: the entries whose name ends in
    [.txt], matched as on a case-sensitive file system. *)
Definition glob_txt (fs : filesystem) (directory : string) : list entry :=
  List.filter (fun f => PyStr.endswith (name f) ".txt") (listdir fs directory).

(** The lines printed while loading. *)
Inductive message : Type :=
| Loaded (filename : string)
| LoadedGBK (filename : string)
| LoadFailed (filename : string) (e : string).

Inductive exn : Type := FileNotFoundError (directory : string).

Record t : Type := mk { loaded_files : dict string }.

(** [__init__] *)
Definition init : t := mk [].

(** The body of the loop of [load_txt_files] on the pair of [txt_files]
    and the output so far. *)
Definition load_file (acc : dict string * list message) (f : entry)
  : dict string * list message :=
  let '(txt_files, out) := acc in
  match read_utf8 f with
  | Content content =>
      (set (name f) content txt_files, out ++ [Loaded (name f)])
  | UnicodeDecodeError _ =>
      match read_gbk f with
      | Content content =>
          (set (name f) content txt_files, out ++ [LoadedGBK (name f)])
      | UnicodeDecodeError e | OtherError e =>
          (txt_files, out ++ [LoadFailed (name f) e])
      end
  | OtherError e => (txt_files, out ++ [LoadFailed (name f) e])
  end.

(** [load_txt_files(directory)]: the raised exception or the returned
    mapping, the object afterwards, and the output. *)
Definition load_txt_files (fs : filesystem) (directory : string) (self : t)
  : (exn + dict string) * t * list message :=
  if negb (path_exists fs directory)
  then (inl (FileNotFoundError directory), self, [])
  else
    let '(txt_files, out) :=
      fold_left load_file (glob_txt fs directory) ([], []) in
    (inr txt_files, mk txt_files, out).


(** [get_file_count()] *)
Definition get_file_count (self : t) : Z :=
  Z.of_nat (length (loaded_files self)).

(** The line feed. *)
Definition newline : string := String (ascii_of_nat 10) EmptyString.

(** [get_all_content()] *)
Definition get_all_content (self : t) : string :=
  match loaded_files self with
  | [] => EmptyString
  | _ :: _ => String.concat newline (values (loaded_files self))
  end.
End FileLoader.

(** ** Character classes and string methods on ASCII text

    [str.isspace], the class [\s] of [re], [str.isalpha], [str.strip] and
    [str.split], by their action on the characters below 128. *)

Module PyText.
(** [c.isspace()], and what [\s] matches: tab, line feed, vertical tab,
    form feed, carriage return, the four separators 28 to 31, and the
    space. *)
Definition is_space (c : ascii) : bool :=
  let n := nat_of_ascii c in
  (((9 <=? n)%nat && (n <=? 13)%nat) || ((28 <=? n)%nat && (n <=? 32)%nat))%bool.

(** What [[a-z]] matches. *)
Definition is_lower (c : ascii) : bool :=
  let n := nat_of_ascii c in ((97 <=? n)%nat && (n <=? 122)%nat)%bool.

(** What [[a-zA-Z]] matches. *)
Definition is_letter (c : ascii) : bool := (PyStr.is_upper c || is_lower c)%bool.

(** Every character of [s] satisfies [p]. *)
Fixpoint all_chars (p : ascii -> bool) (s : string) : bool :=
  match s with
  | EmptyString => true
  | String c s' => (p c && all_chars p s')%bool
  end.

(** The text has no character above 127. *)
Definition is_ascii (s : string) : bool :=
  all_chars (fun c => (nat_of_ascii c <? 128)%nat) s.

(** [s.isalpha()]: at least one character, and letters only. *)
Definition isalpha (s : string) : bool :=
  match s with
  | EmptyString => false
  | String _ _ => all_chars is_letter s
  end.

(** [s.lstrip()] *)
Fixpoint lstrip (s : string) : string :=
  match s with
  | EmptyString => EmptyString
  | String c s' => if is_space c then lstrip s' else s
  end.

(** [s.rstrip()] *)
Fixpoint rstrip (s : string) : string :=
  match s with
  | EmptyString => EmptyString
  | String c s' =>
      match rstrip s' with
      | EmptyString => if is_space c then EmptyString else String c EmptyString
      | String _ _ as rest => String c rest
      end
  end.

(** [s.strip()] *)
Definition strip (s : string) : string := rstrip (lstrip s).

(** [s.split()] with [word] the characters of the word being read. *)
Fixpoint split_from (word : string) (s : string) : list string :=
  match s with
  | EmptyString =>
      match word with EmptyString => [] | String _ _ => [word] end
  | String c s' =>
      if is_space c then
        match word with
        | EmptyString => split_from EmptyString s'
        | String _ _ => word :: split_from EmptyString s'
        end
      else split_from (String.append word (String c EmptyString)) s'
  end.

(** [s.split()]: the maximal runs of characters that are no whitespace. *)
Definition split (s : string) : list string := split_from EmptyString s.
End PyText.

(** ** [class TextProcessor]

    [word_tokenize] of NLTK is a parameter.  The stop words the constructor
    loads (NLTK's list and an optional file) are whatever set the object
    holds. *)

Module TextProcessor.
Record t : Type := mk { stopwords_set : gset string }.

(** [re.sub(r'[^a-zA-Z\s]', ' ', text)] *)
Fixpoint blank_non_letters (text : string) : string :=
  match text with
  | EmptyString => EmptyString
  | String c rest =>
      String (if (PyText.is_letter c || PyText.is_space c)%bool then c else " "%char)
             (blank_non_letters rest)
  end.

(** [re.sub(r'\s+', ' ', text)]: every maximal run of whitespace becomes one
    space; [in_run] says that the run being read has been replaced
    already. *)
Fixpoint collapse_spaces (in_run : bool) (text : string) : string :=
  match text with
  | EmptyString => EmptyString
  | String c rest =>
      if PyText.is_space c then
        if in_run then collapse_spaces true rest
        else String " "%char (collapse_spaces true rest)
      else String c (collapse_spaces false rest)
  end.

(** [clean_text(text)] *)
Definition clean_text (text : string) : string :=
  match text with
  | EmptyString => EmptyString
  | String _ _ =>
      let text1 := PyStr.lower text in
      let text2 := blank_non_letters text1 in
      PyText.strip (collapse_spaces false text2)
  end.

(** What [tokenize] prints. *)
Inductive message : Type := TokenizeFailed (e : string).

(** The test of the list comprehension of [remove_stopwords]. *)
Definition keeps (self : t) (token : string) : bool :=
  (negb (bool_decide (PyStr.lower token ∈ stopwords_set self))
   && (2 <=? String.length token)%nat
   && PyText.isalpha token)%bool.

(** [remove_stopwords(tokens)] *)
Definition remove_stopwords (tokens : list string) (self : t) : list string :=
  match tokens with
  | [] => []
  | _ :: _ => List.filter (keeps self) tokens
  end.

Section tokenizer.
(** [nltk.tokenize.word_tokenize]: the tokens, or the text of the exception
    it raised. *)
Variable word_tokenize : string -> list string + string.

(** [tokenize(text)]: the tokens and what was printed. *)
Definition tokenize (text : string) : list string * list message :=
  match text with
  | EmptyString => ([], [])
  | String _ _ =>
      match word_tokenize text with
      | inl tokens => (tokens, [])
      | inr e => (PyText.split text, [TokenizeFailed e])
      end
  end.

(** [process_text(text)]: the words and what was printed. *)
Definition process_text (text : string) (self : t) : list string * list message :=
  let cleaned_text := clean_text text in
  let '(tokens, out) := tokenize cleaned_text in
  (remove_stopwords tokens self, out).
End tokenizer.

(** [get_stopwords_count()] *)
Definition get_stopwords_count (self : t) : Z :=
  Z.of_nat (size (stopwords_set self)).

(** [add_custom_stopwords(words)] *)
Definition add_custom_stopwords (words : list string) (self : t) : t :=
  fold_left
    (fun self word =>
       mk ({[ PyText.strip (PyStr.lower word) ]} ∪ stopwords_set self))
    words self.
End TextProcessor.

(** ** [class CSVExporter]

    A file is written through [csv.writer]; what a file holds is modelled
    as the rows that [writerow] accepted, that is, was handed without
    raising, a row being its cells.  Every step of the [try] block that touches the file may raise,
    and each is a parameter that gives the text of the exception, or
    nothing when the step succeeds: [open_file] for creating the directory
    and opening the file, [writerow] for one row, given the rows the file
    holds already, and [close_file] for leaving the [with] block.  The
    fixed texts of the statistics layout are cells of their own.
    Formatting a percentage is floating-point work and a parameter. *)

Module CSVExporter.
Import PyDict.

Inductive label : Type :=
| StatisticsTitle | TotalWordsLabel | UniqueWordsLabel
| WordColumn | CountColumn | PercentColumn.

Inductive cell : Type :=
| Str (s : string)
| Num (n : Z)
| Fixed (l : label).

(** The lines printed while exporting. *)
Inductive message : Type :=
| EmptyData
| Exported (filename : string)
| ExportedCount (n : Z)
| ExportFailed (e : string)
| NothingAfterFilter
| ExportedWithStatistics (filename : string)
| ExportWithStatisticsFailed (e : string).

Record t : Type := mk { default_headers : list string }.

(** [__init__] *)
Definition init : t := mk ["word"; "count"].

(** [sorted(items, key=lambda x: x[0])]: ascending by word, strings being
    compared character by character; the sort is stable. *)
Fixpoint insert_by_word (item : string * Z) (sorted : list (string * Z))
  : list (string * Z) :=
  match sorted with
  | [] => [item]
  | x :: rest =>
      if String.leb item.1 x.1 then item :: x :: rest
      else x :: insert_by_word item rest
  end.

Definition sorted_by_word (items : list (string * Z)) : list (string * Z) :=
  foldr insert_by_word [] items.

(** [dict(pairs)] *)
Definition dict_of (pairs : list (string * Z)) : dict Z := update [] pairs.

(** [[word, count]], the row of one entry. *)
Definition data_row (item : string * Z) : list cell := [Str item.1; Num item.2].

(** [max(word_counts.items(), key=lambda x: x[1])]: the first item that no
    later one exceeds. *)
Definition max_by_count (item : string * Z) (rest : list (string * Z))
  : string * Z :=
  fold_left (fun best x => if best.2 <? x.2 then x else best) rest item.

Section files.
Variable open_file : string -> option string.
Variable writerow : string -> list (list cell) -> list cell -> option string.
Variable close_file : string -> list (list cell) -> option string.

(** The calls [writer.writerow(row)] for the rows of [rows], in order, on a
    file that holds [written]: what the file holds when the calls end, and
    the exception that ended them, if any. *)
Fixpoint write_rows (filename : string) (written rows : list (list cell))
  : list (list cell) * option string :=
  match rows with
  | [] => (written, None)
  | row :: rest =>
      match writerow filename written row with
      | Some e => (written, Some e)
      | None => write_rows filename (written ++ [row]) rest
      end
  end.

(** The [with open(...)] block that writes [rows] to a file just opened:
    what the file holds when the block is left, and the exception that
    leaves it, if any.  The file is closed in either case, and an exception
    raised while closing takes the place of one raised while writing. *)
Definition write_file (filename : string) (rows : list (list cell))
  : list (list cell) * option string :=
  let '(written, failure) := write_rows filename [] rows in
  match close_file filename written with
  | Some e => (written, Some e)
  | None => (written, failure)
  end.

(** [export_word_frequency(word_counts, filename, sort_by_count, headers)]:
    the returned flag, the rows the file holds if it was opened, and the
    output. *)
Definition export_word_frequency (word_counts : dict Z) (filename : string)
    (sort_by_count : bool) (headers : option (list string)) (self : t)
  : bool * option (list (list cell)) * list message :=
  match word_counts with
  | [] => (false, None, [EmptyData])
  | _ :: _ =>
      match open_file filename with
      | Some e => (false, None, [ExportFailed e])
      | None =>
          let sorted_items :=
            if sort_by_count then Ranking.sorted_desc word_counts
            else sorted_by_word word_counts in
          let headers :=
            match headers with
            | None => default_headers self
            | Some given => given
            end in
          match write_file filename
                  ((Str <$> headers) :: (data_row <$> sorted_items)) with
          | (written, Some e) => (false, Some written, [ExportFailed e])
          | (written, None) =>
              (true, Some written,
               [Exported filename;
                ExportedCount (Z.of_nat (length sorted_items))])
          end
      end
  end.

(** [export_top_words(word_counts, filename, top_n, headers)] *)
Definition export_top_words (word_counts : dict Z) (filename : string)
    (top_n : Z) (headers : option (list string)) (self : t)
  : bool * option (list (list cell)) * list message :=
  match word_counts with
  | [] => (false, None, [])
  | _ :: _ =>
      let sorted_items := Ranking.sorted_desc word_counts in
      let top_words := dict_of (PyNum.slice_to top_n sorted_items) in
      export_word_frequency top_words filename true headers self
  end.

(** [export_filtered_words(word_counts, filename, min_frequency, min_length)];
    [len(word)] is the number of characters of the word, which is the
    length of the string for a word of ASCII characters. *)
Definition export_filtered_words (word_counts : dict Z) (filename : string)
    (min_frequency min_length : Z) (self : t)
  : bool * option (list (list cell)) * list message :=
  match word_counts with
  | [] => (false, None, [])
  | _ :: _ =>
      let filtered_words :=
        dict_of
          (List.filter
             (fun item => (min_frequency <=? item.2)
                          && (min_length <=? Z.of_nat (String.length item.1)))
             word_counts) in
      match filtered_words with
      | [] => (false, None, [NothingAfterFilter])
      | _ :: _ => export_word_frequency filtered_words filename true None self
      end
  end.

(** [f"{frequency_percent:.2f}"] for [count / total_words * 100]. *)
Variable format_percent : Z -> Z -> string.

(** [export_with_statistics(word_counts, filename, total_words, unique_words)] *)
Definition export_with_statistics (word_counts : dict Z) (filename : string)
    (total_words unique_words : option Z) (self : t)
  : bool * option (list (list cell)) * list message :=
  match word_counts with
  | [] => (false, None, [])
  | _ :: _ =>
      match open_file filename with
      | Some e => (false, None, [ExportWithStatisticsFailed e])
      | None =>
          let total_words :=
            match total_words with
            | None => foldr Z.add 0 (values word_counts)
            | Some given => given
            end in
          let unique_words :=
            match unique_words with
            | None => Z.of_nat (length word_counts)
            | Some given => given
            end in
          let sorted_items := Ranking.sorted_desc word_counts in
          match write_file filename
                  ([Fixed StatisticsTitle]
                   :: [Fixed TotalWordsLabel; Num total_words]
                   :: [Fixed UniqueWordsLabel; Num unique_words]
                   :: [Str ""]
                   :: [Fixed WordColumn; Fixed CountColumn; Fixed PercentColumn]
                   :: ((fun item =>
                          [Str item.1; Num item.2;
                           Str (if 0 <? total_words
                                then format_percent item.2 total_words
                                else "0.00")]) <$> sorted_items)) with
          | (written, Some e) =>
              (false, Some written, [ExportWithStatisticsFailed e])
          | (written, None) =>
              (true, Some written, [ExportedWithStatistics filename])
          end
      end
  end.
End files.

(** The dictionary that [get_export_summary] returns, one field per key. *)
Record summary (F : Type) : Type := mk_summary {
  total_unique_words : Z;
  total_word_count : Z;
  max_frequency : Z;
  min_frequency : Z;
  avg_frequency : F;
  most_common_word : string * Z
}.
Arguments mk_summary {F}.
Arguments total_unique_words {F}.
Arguments total_word_count {F}.
Arguments max_frequency {F}.
Arguments min_frequency {F}.
Arguments avg_frequency {F}.
Arguments most_common_word {F}.

Section summary.
Context {F : Type}.
Variable truediv : Z -> Z -> F.

(** [get_export_summary(word_counts)]: nothing stands for the empty
    dictionary returned on an empty table. *)
Definition get_export_summary (word_counts : dict Z) : option (summary F) :=
  match word_counts with
  | [] => None
  | item :: rest =>
      let frequencies := values word_counts in
      Some (mk_summary
              (Z.of_nat (length word_counts))
              (foldr Z.add 0 frequencies)
              (PyNum.max_of item.2 (values rest))
              (PyNum.min_of item.2 (values rest))
              (truediv (foldr Z.add 0 frequencies)
                       (Z.of_nat (length frequencies)))
              (max_by_count item rest))
  end.
End summary.
End CSVExporter.

(** ** [class WorkerThread] of the main window

    [run] is modelled by the signals it emits, in order.  The constructor
    of [TextProcessor] loads NLTK data and may raise: it is a parameter
    that gives the object or the text of the exception.  What the loader
    and the tokenizer print is left aside. *)

Module WorkerThread.
Import PyDict.

(** The texts sent with [status_updated]. *)
Inductive status : Type :=
| LoadingFiles
| NoTxtFiles
| ProcessingText
| CountingWords
| AnalysisDone
| AnalysisFailed (e : FileLoader.exn + string).

(** The dictionary sent with [analysis_completed]: the statistics of the
    counter and the key [file_count] added to them. *)
Record statistics (F : Type) : Type := mk_statistics {
  counter_statistics : Statistics.t F;
  file_count : Z
}.
Arguments mk_statistics {F}.
Arguments counter_statistics {F}.
Arguments file_count {F}.

Inductive signal (F : Type) : Type :=
| StatusUpdated (s : status)
| ProgressUpdated (value : Z)
| AnalysisCompleted (word_counts : dict Z) (stats : statistics F).
Arguments StatusUpdated {F}.
Arguments ProgressUpdated {F}.
Arguments AnalysisCompleted {F}.

Record t : Type := mk {
  directory_path : string;
  custom_stopwords_path : option string
}.

Section run.
Context {F : Type}.
Variable fs : FileLoader.filesystem.
Variable new_text_processor : option string -> TextProcessor.t + string.
Variable word_tokenize : string -> list string + string.
Variable truediv : Z -> Z -> F.

(** [run()] *)
Definition run (self : t) : list (signal F) :=
  [StatusUpdated LoadingFiles; ProgressUpdated 10] ++
  match FileLoader.load_txt_files fs (directory_path self) FileLoader.init with
  | (inl e, _, _) => [StatusUpdated (AnalysisFailed (inl e))]
  | (inr files, file_loader, _) =>
      match files with
      | [] => [StatusUpdated NoTxtFiles]
      | _ :: _ =>
          [ProgressUpdated 30; StatusUpdated ProcessingText] ++
          match new_text_processor (custom_stopwords_path self) with
          | inr e => [StatusUpdated (AnalysisFailed (inr e))]
          | inl text_processor =>
              let all_content := FileLoader.get_all_content file_loader in
              let processed_words :=
                (TextProcessor.process_text word_tokenize all_content
                   text_processor).1 in
              [ProgressUpdated 60; StatusUpdated CountingWords] ++
              let word_counter :=
                (WordCounter.count_words processed_words WordCounter.init).2 in
              [ProgressUpdated 80] ++
              let stats :=
                mk_statistics (WordCounter.get_statistics truediv word_counter)
                              (FileLoader.get_file_count file_loader) in
              [ProgressUpdated 100; StatusUpdated AnalysisDone;
               AnalysisCompleted (WordCounter.to_dict word_counter) stats]
          end
      end
  end.
End run.
End WorkerThread.

(** ** Vocabulary of the statements *)

Module Spec.
(** How often [w] occurs in [words]: [words.count(w)]. *)
Fixpoint occurrences (w : string) (words : list string) : Z :=
  match words with
  | [] => 0
  | w' :: rest =>
      (if decide (w = w') then 1 else 0) + occurrences w rest
  end.

(** Every count of the table satisfies [P]. *)
Definition counts_all (P : Z -> Prop) (c : Counter.t) : Prop :=
  Forall (fun item => P item.2) c.

(** A counter is in good shape: its table is a dictionary whose counts
    are at least one, and [total_words] is their sum. *)
Definition counter_ok (o : WordCounter.t) : Prop :=
  PyDict.wf (WordCounter.word_counts o) /\
  counts_all (fun n => 1 <= n) (WordCounter.word_counts o) /\
  WordCounter.total_words o = Counter.total (WordCounter.word_counts o).

(** [x] lies between [lo] and the optional bound [hi]. *)
Definition within (lo : Z) (hi : option Z) (x : Z) : Prop :=
  lo <= x /\ match hi with Some m => x <= m | None => True end.

(** The same, as a test. *)
Definition in_range (lo : Z) (hi : option Z) (x : Z) : bool :=
  (lo <=? x) && match hi with Some m => x <=? m | None => true end.

(** The order in which keys enter a dictionary: a key that is present
    stays where it is, a new one goes to the end. *)
Definition add_key (ks : list string) (k : string) : list string :=
  if decide (k ∈ ks) then ks else ks ++ [k].
Definition add_keys (new ks : list string) : list string :=
  fold_left add_key new ks.

(** The counter that [WordCounter()] followed by [count_words(ws)]
    leaves. *)
Definition built (ws : list string) : WordCounter.t :=
  (WordCounter.count_words ws WordCounter.init).2.

(** The shape of a cleaned text, read from the left: every character is a
    lowercase letter or a space, and no space follows a space
    ([after_space] tells whether the character before was one). *)
Fixpoint single_spaced (after_space : bool) (s : string) : bool :=
  match s with
  | EmptyString => true
  | String c s' =>
      if Ascii.eqb c " " then (negb after_space && single_spaced true s')%bool
      else (PyText.is_lower c && single_spaced false s')%bool
  end.

(** The last character of [s] is a space. *)
Fixpoint ends_with_space (s : string) : bool :=
  match s with
  | EmptyString => false
  | String c s' =>
      match s' with
      | EmptyString => Ascii.eqb c " "
      | String _ _ => ends_with_space s'
      end
  end.

(** Lowercase words with one space between two of them, and no space at
    either end; the empty text is of this shape. *)
Definition is_clean (s : string) : bool :=
  (single_spaced true s && negb (ends_with_space s))%bool.


Section loader.
Import FileLoader.



End loader.
End Spec.

(** * Properties *)

(** ** Lists without repetition, around one element *)

Section nodup_middle.
Context {A : Type}.
Implicit Types (x : A) (l r : list A).

Lemma NoDup_middle_notin l x r : NoDup (l ++ x :: r) -> x ∉ l.
Proof.
  intros (_ & Hdis & _)%NoDup_app Hin. apply (Hdis x Hin). by left.
Qed.

Lemma NoDup_middle_snoc l x r : NoDup (l ++ x :: r) -> NoDup ((l ++ [x]) ++ r).
Proof. by rewrite <- app_assoc. Qed.

Lemma NoDup_middle_drop l x r : NoDup (l ++ x :: r) -> NoDup (l ++ r).
Proof.
  intros (Hl & Hdis & [_ Hr]%NoDup_cons)%NoDup_app. apply NoDup_app.
  split; [done|]. split; [|done].
  intros y Hy Hyr. apply (Hdis y Hy). by right.
Qed.
End nodup_middle.

(** ** The ordered dictionary *)

Section dict_facts.
Context {V : Type}.
Implicit Types (d : PyDict.dict V) (k : string) (v : V).

(** A new key is appended. *)
Lemma set_fresh d k v : k ∉ PyDict.keys d -> PyDict.set k v d = d ++ [(k, v)].
Proof.
  induction d as [|[k0 v0] d IH]; simpl; [done|].
  intros [Hne Hout]%not_elem_of_cons.
  rewrite decide_False by done. f_equal. by apply IH.
Qed.

Lemma keys_snoc d k v : PyDict.keys (d ++ [(k, v)]) = PyDict.keys d ++ [k].
Proof. unfold PyDict.keys. by rewrite fmap_app. Qed.

Lemma get_set_eq d k v : PyDict.get k (PyDict.set k v d) = Some v.
Proof.
  induction d as [|[k' v'] d IH]; simpl.
  - by rewrite decide_True.
  - destruct (decide (k = k')) as [->|Hne]; simpl.
    + by rewrite decide_True.
    + by rewrite decide_False.
Qed.

Lemma get_set_ne d k k' v :
  k ≠ k' -> PyDict.get k' (PyDict.set k v d) = PyDict.get k' d.
Proof.
  intros Hne. induction d as [|[k0 v0] d IH]; simpl.
  - by rewrite decide_False.
  - destruct (decide (k = k0)) as [->|Hk]; simpl.
    + by rewrite !decide_False.
    + by rewrite IH.
Qed.

Lemma get_None d k : PyDict.get k d = None <-> k ∉ PyDict.keys d.
Proof.
  induction d as [|[k' v'] d IH]; simpl.
  - split; [intros _; apply not_elem_of_nil | done].
  - rewrite not_elem_of_cons. destruct (decide (k = k')) as [->|Hne].
    + split; [done | by intros [? _]].
    + rewrite IH. tauto.
Qed.

Lemma get_is_Some d k : is_Some (PyDict.get k d) <-> k ∈ PyDict.keys d.
Proof.
  destruct (decide (k ∈ PyDict.keys d)) as [Hin|Hout].
  - split; [done|]. intros _. destruct (PyDict.get k d) eqn:E; [done|].
    by apply get_None in E.
  - apply get_None in Hout as E. rewrite E. split; [by intros [? ?]|done].
Qed.

(** Assigning to a key that is present keeps the key list, a new key goes
    to its end. *)
Lemma keys_set_in d k v :
  k ∈ PyDict.keys d -> PyDict.keys (PyDict.set k v d) = PyDict.keys d.
Proof.
  induction d as [|[k' v'] d IH]; simpl.
  - by intros ?%elem_of_nil.
  - intros Hin. destruct (decide (k = k')) as [->|Hne]; simpl; [done|].
    f_equal. apply IH. apply elem_of_cons in Hin as [?|?]; done.
Qed.

Lemma keys_set_notin d k v :
  k ∉ PyDict.keys d -> PyDict.keys (PyDict.set k v d) = PyDict.keys d ++ [k].
Proof. intros Hout. by rewrite set_fresh, keys_snoc. Qed.

Lemma wf_set d k v : PyDict.wf d -> PyDict.wf (PyDict.set k v d).
Proof.
  unfold PyDict.wf. intros Hwf.
  destruct (decide (k ∈ PyDict.keys d)) as [Hin|Hout].
  - by rewrite keys_set_in.
  - rewrite keys_set_notin by done. apply NoDup_app. split; [done|].
    split; [|apply NoDup_singleton].
    intros x Hx ->%list_elem_of_singleton. done.
Qed.

Lemma elem_of_keys_set d k k' v :
  k' ∈ PyDict.keys (PyDict.set k v d) <-> k' = k \/ k' ∈ PyDict.keys d.
Proof.
  destruct (decide (k ∈ PyDict.keys d)) as [Hin|Hout].
  - rewrite keys_set_in by done. split; [tauto|]. intros [->|?]; done.
  - rewrite keys_set_notin by done. rewrite elem_of_app, list_elem_of_singleton.
    tauto.
Qed.

(** In a well-formed dictionary the entries are exactly what [get]
    finds. *)
Lemma get_Some_elem_of d k v :
  PyDict.wf d -> PyDict.get k d = Some v <-> (k, v) ∈ d.
Proof.
  unfold PyDict.wf. induction d as [|[k' v'] d IH]; simpl; intros Hwf.
  - split; [done | by intros ?%elem_of_nil].
  - apply NoDup_cons in Hwf as [Hk' Hwf]. rewrite elem_of_cons.
    destruct (decide (k = k')) as [->|Hne].
    + split.
      * intros [= ->]. by left.
      * intros [[= ->]|Hin]; [done|].
        exfalso. apply Hk'. apply list_elem_of_fmap. by exists (k', v).
    + rewrite IH by done. split; [tauto|]. intros [[= ? ?]|?]; done.
Qed.

(** With unique keys, assigning to the key found at position [pos]
    rewrites that position and nothing else. *)
Lemma set_at_position d (pos : nat) k v0 v :
  PyDict.wf d -> d !! pos = Some (k, v0) ->
  PyDict.set k v d = <[pos := (k, v)]> d.
Proof.
  unfold PyDict.wf. revert pos.
  induction d as [|[k' v'] d IH]; intros pos Hwf Hpos; [done|].
  simpl in Hwf. apply NoDup_cons in Hwf as [Hk' Hwf].
  destruct pos as [|pos]; simpl in *.
  - injection Hpos as -> ->. by rewrite decide_True.
  - destruct (decide (k = k')) as [->|Hne].
    + exfalso. apply Hk'. apply list_elem_of_fmap. exists (k', v0).
      split; [done|]. by eapply list_elem_of_lookup_2.
    + f_equal. by eapply IH.
Qed.
End dict_facts.

(** ** The counter *)

Section counter_facts.
Implicit Types (c : Counter.t) (k w : string) (n : Z).

Lemma get0_set_eq c k n : Counter.get0 k (PyDict.set k n c) = n.
Proof. unfold Counter.get0. by rewrite get_set_eq. Qed.

Lemma get0_set_ne c k k' n :
  k ≠ k' -> Counter.get0 k' (PyDict.set k n c) = Counter.get0 k' c.
Proof. intros. unfold Counter.get0. by rewrite get_set_ne. Qed.

Lemma get0_notin c k : k ∉ PyDict.keys c -> Counter.get0 k c = 0.
Proof. intros H%get_None. unfold Counter.get0. by rewrite H. Qed.

Lemma get0_cons c k k' n :
  Counter.get0 k ((k', n) :: c) = if decide (k = k') then n else Counter.get0 k c.
Proof. unfold Counter.get0. simpl. by destruct (decide (k = k')). Qed.

Lemma total_cons c k n : Counter.total ((k, n) :: c) = n + Counter.total c.
Proof. done. Qed.

(** An assignment changes the sum of the counts by the difference to
    the count it overwrites. *)
Lemma total_set c k n :
  Counter.total (PyDict.set k n c) = Counter.total c - Counter.get0 k c + n.
Proof.
  induction c as [|[k' n'] c IH].
  - unfold Counter.get0. simpl. unfold Counter.total. simpl. lia.
  - simpl. rewrite get0_cons. destruct (decide (k = k')) as [->|Hne].
    + rewrite !total_cons. lia.
    + rewrite !total_cons, IH. lia.
Qed.

Lemma counts_all_set (P : Z -> Prop) c k n :
  Spec.counts_all P c -> P n -> Spec.counts_all P (PyDict.set k n c).
Proof.
  unfold Spec.counts_all. intros Hc Hn.
  induction c as [|[k' n'] c IH]; simpl.
  - by constructor.
  - apply Forall_cons in Hc as [Hhd Htl].
    destruct (decide (k = k')); constructor; auto.
Qed.

Lemma counts_all_get0 (P : Z -> Prop) c k :
  Spec.counts_all P c -> P 0 -> P (Counter.get0 k c).
Proof.
  unfold Spec.counts_all, Counter.get0. intros Hc H0.
  induction c as [|[k' n'] c IH]; simpl; [done|].
  apply Forall_cons in Hc as [Hhd Htl].
  destruct (decide (k = k')); simpl; auto.
Qed.

(** *** [Counter(words)] *)

Lemma of_list_snoc (ws : list string) w :
  Counter.of_list (ws ++ [w]) = Counter.incr (Counter.of_list ws) w.
Proof. unfold Counter.of_list. by rewrite fold_left_app. Qed.

Lemma total_incr c w : Counter.total (Counter.incr c w) = Counter.total c + 1.
Proof. unfold Counter.incr. rewrite total_set. lia. Qed.

Lemma total_of_list (ws : list string) :
  Counter.total (Counter.of_list ws) = Z.of_nat (length ws).
Proof.
  induction ws as [|w ws IH] using rev_ind; [done|].
  rewrite of_list_snoc, total_incr, IH, length_app. simpl. lia.
Qed.

Lemma occurrences_snoc (ws : list string) k w :
  Spec.occurrences k (ws ++ [w]) =
  Spec.occurrences k ws + (if decide (k = w) then 1 else 0).
Proof.
  induction ws as [|w' ws IH]; simpl; [lia|]. rewrite IH. lia.
Qed.

Lemma occurrences_nonneg (ws : list string) k : 0 <= Spec.occurrences k ws.
Proof.
  induction ws as [|w' ws IH]; simpl; [lia|].
  destruct (decide (k = w')); lia.
Qed.

Lemma occurrences_pos (ws : list string) k :
  k ∈ ws -> 1 <= Spec.occurrences k ws.
Proof.
  induction ws as [|w' ws IH]; simpl; [by intros ?%elem_of_nil|].
  intros Hin. pose proof (occurrences_nonneg ws k).
  destruct (decide (k = w')) as [->|Hne]; [lia|].
  apply elem_of_cons in Hin as [?|?]; [done|]. specialize (IH H0). lia.
Qed.

(** The count stored for a word is the number of its occurrences. *)
Lemma get0_of_list (ws : list string) k :
  Counter.get0 k (Counter.of_list ws) = Spec.occurrences k ws.
Proof.
  induction ws as [|w ws IH] using rev_ind; [done|].
  rewrite of_list_snoc, occurrences_snoc. unfold Counter.incr.
  destruct (decide (k = w)) as [->|Hne].
  - rewrite get0_set_eq, IH. lia.
  - rewrite get0_set_ne by done. rewrite IH. lia.
Qed.

Lemma wf_of_list (ws : list string) : PyDict.wf (Counter.of_list ws).
Proof.
  induction ws as [|w ws IH] using rev_ind; [apply NoDup_nil_2|].
  rewrite of_list_snoc. by apply wf_set.
Qed.

Lemma elem_of_keys_of_list (ws : list string) k :
  k ∈ PyDict.keys (Counter.of_list ws) <-> k ∈ ws.
Proof.
  induction ws as [|w ws IH] using rev_ind; [done|].
  rewrite of_list_snoc. unfold Counter.incr.
  rewrite elem_of_keys_set, IH, elem_of_app, list_elem_of_singleton. tauto.
Qed.

Lemma counts_of_list_pos (ws : list string) :
  Spec.counts_all (fun n => 1 <= n) (Counter.of_list ws).
Proof.
  induction ws as [|w ws IH] using rev_ind; [by constructor|].
  rewrite of_list_snoc. apply counts_all_set; [done|].
  assert (0 <= Counter.get0 w (Counter.of_list ws)); [|lia].
  apply (counts_all_get0 (fun n => 0 <= n)); [|lia].
  eapply Forall_impl; [exact IH|]. simpl. lia.
Qed.

End counter_facts.

(** ** Adding one table to another *)

Section update_facts.
Implicit Types (c self other : Counter.t) (k : string) (n : Z).

Lemma get0_add_item c k k' n :
  Counter.get0 k (Counter.add_item c (k', n)) =
  Counter.get0 k c + (if decide (k = k') then n else 0).
Proof.
  unfold Counter.add_item. simpl. destruct (decide (k = k')) as [->|Hne].
  - rewrite get0_set_eq. lia.
  - rewrite get0_set_ne by done. lia.
Qed.

Lemma total_add_item c k n :
  Counter.total (Counter.add_item c (k, n)) = Counter.total c + n.
Proof. unfold Counter.add_item. simpl. rewrite total_set. lia. Qed.

Lemma wf_add_item c item : PyDict.wf c -> PyDict.wf (Counter.add_item c item).
Proof. apply wf_set. Qed.

Lemma get0_fold_add other : forall self k,
  PyDict.wf other ->
  Counter.get0 k (fold_left Counter.add_item other self) =
  Counter.get0 k self + Counter.get0 k other.
Proof.
  unfold PyDict.wf.
  induction other as [|[k' n] other IH]; intros self k Hwf; simpl.
  - unfold Counter.get0 at 3. simpl. lia.
  - simpl in Hwf. apply NoDup_cons in Hwf as [Hk' Hwf].
    rewrite IH by done. rewrite get0_add_item, get0_cons.
    destruct (decide (k = k')) as [->|Hne]; [|lia].
    rewrite (get0_notin other k') by done. lia.
Qed.

Lemma total_fold_add other : forall self,
  Counter.total (fold_left Counter.add_item other self) =
  Counter.total self + Counter.total other.
Proof.
  induction other as [|[k n] other IH]; intros self; simpl.
  - unfold Counter.total at 3. simpl. lia.
  - rewrite IH, total_add_item, total_cons. lia.
Qed.

Lemma wf_fold_add other : forall self,
  PyDict.wf self -> PyDict.wf (fold_left Counter.add_item other self).
Proof.
  induction other as [|item other IH]; intros self Hwf; simpl; [done|].
  apply IH. by apply wf_add_item.
Qed.

Lemma counts_fold_add_pos other : forall self,
  Spec.counts_all (fun n => 1 <= n) self ->
  Spec.counts_all (fun n => 1 <= n) other ->
  Spec.counts_all (fun n => 1 <= n) (fold_left Counter.add_item other self).
Proof.
  induction other as [|[k n] other IH]; intros self Hs Ho; simpl; [done|].
  apply Forall_cons in Ho as [Hn Ho]. simpl in Hn.
  apply IH; [|done]. unfold Counter.add_item. simpl.
  apply counts_all_set; [done|].
  assert (0 <= Counter.get0 k self); [|lia].
  apply (counts_all_get0 (fun n => 0 <= n)); [|lia].
  eapply Forall_impl; [exact Hs|]. simpl. lia.
Qed.

(** [dict.update] into a dictionary that shares no key with [other]
    appends the items of [other]. *)
Lemma dict_update_disjoint {V : Type} (other : PyDict.dict V) :
  forall d : PyDict.dict V,
  NoDup (PyDict.keys d ++ PyDict.keys other) ->
  PyDict.update d other = d ++ other.
Proof.
  unfold PyDict.update.
  induction other as [|[k v] other IH]; intros d Hnd; simpl.
  - by rewrite app_nil_r.
  - simpl in Hnd. rewrite set_fresh by by eapply NoDup_middle_notin.
    rewrite IH; [by rewrite <- app_assoc|].
    rewrite keys_snoc. by apply NoDup_middle_snoc.
Qed.

(** The summing loop over a table that shares no word with [self]
    appends its entries as they are. *)
Lemma fold_add_disjoint other : forall self,
  NoDup (PyDict.keys self ++ PyDict.keys other) ->
  fold_left Counter.add_item other self = self ++ other.
Proof.
  induction other as [|[k n] other IH]; intros d Hnd; cbn [fold_left].
  - by rewrite app_nil_r.
  - simpl in Hnd. assert (Hk : k ∉ PyDict.keys d) by by eapply NoDup_middle_notin.
    assert (Hadd : Counter.add_item d (k, n) = d ++ [(k, n)]).
    { unfold Counter.add_item. cbn [fst snd].
      by rewrite get0_notin, Z.add_0_r, set_fresh. }
    rewrite Hadd, IH; [by rewrite <- app_assoc|].
    rewrite keys_snoc. by apply NoDup_middle_snoc.
Qed.

(** The fast path of [Counter.update] and its summing loop agree: an empty
    table becomes a copy of [other]. *)
Lemma fold_add_empty other :
  PyDict.wf other -> fold_left Counter.add_item other [] = other.
Proof. intros Hwf. by apply (fold_add_disjoint other []). Qed.

Lemma update_fold self other :
  PyDict.wf other ->
  Counter.update self other = fold_left Counter.add_item other self.
Proof.
  intros Hwf. unfold Counter.update. destruct self as [|item self]; simpl; [|done].
  rewrite fold_add_empty by done. by apply (dict_update_disjoint other []).
Qed.

Lemma get0_update self other k :
  PyDict.wf other ->
  Counter.get0 k (Counter.update self other) =
  Counter.get0 k self + Counter.get0 k other.
Proof. intros. rewrite update_fold by done. by apply get0_fold_add. Qed.

Lemma total_update self other :
  PyDict.wf other ->
  Counter.total (Counter.update self other) =
  Counter.total self + Counter.total other.
Proof. intros. rewrite update_fold by done. apply total_fold_add. Qed.

Lemma wf_update self other :
  PyDict.wf self -> PyDict.wf other -> PyDict.wf (Counter.update self other).
Proof. intros. rewrite update_fold by done. by apply wf_fold_add. Qed.

Lemma counts_update_pos self other :
  PyDict.wf other ->
  Spec.counts_all (fun n => 1 <= n) self ->
  Spec.counts_all (fun n => 1 <= n) other ->
  Spec.counts_all (fun n => 1 <= n) (Counter.update self other).
Proof. intros. rewrite update_fold by done. by apply counts_fold_add_pos. Qed.
End update_facts.

(** ** Merging on the heap

    The loop of [Counter.update] reads [other] while it writes [self].
    When both are one object, every write hits the position the loop has
    just read, so the items still to come are the ones the table had at
    the start: the loop computes what it computes on a snapshot. *)

Section heap_facts.
Import WordCounter.
Implicit Types (h : Heap.heap) (self other : Heap.ref) (a b : WordCounter.t).

Lemma set_word_counts_twice (c1 c2 : Counter.t) a :
  Heap.set_word_counts c2 (Heap.set_word_counts c1 a) = Heap.set_word_counts c2 a.
Proof. done. Qed.

Lemma update_loop_snapshot (fuel : nat) :
  forall (pos : nat) h self other a b,
  h !! self = Some a -> h !! other = Some b ->
  PyDict.wf (word_counts b) ->
  fuel = length (drop pos (word_counts b)) ->
  Heap.update_loop fuel pos self other h =
  <[self := Heap.set_word_counts
              (fold_left Counter.add_item (drop pos (word_counts b))
                         (word_counts a)) a]> h.
Proof.
  induction fuel as [|fuel IH]; intros pos h self other a b Ha Hb Hwf Hfuel.
  - symmetry in Hfuel. apply length_zero_iff_nil in Hfuel. rewrite Hfuel.
    simpl. destruct a. symmetry. by apply list_insert_id.
  - simpl. rewrite Ha, Hb.
    destruct (word_counts b !! pos) as [[k n]|] eqn:Hpos; last first.
    { apply lookup_ge_None in Hpos. rewrite drop_ge in Hfuel by done. done. }
    rewrite (drop_S _ _ _ Hpos) in Hfuel |- *. simpl in Hfuel |- *.
    injection Hfuel as Hfuel.
    set (a' := Heap.set_word_counts (Counter.add_item (word_counts a) (k, n)) a).
    assert (Hself : <[self := a']> h !! self = Some a').
    { apply list_lookup_insert_eq. by eapply lookup_lt_Some. }
    destruct (decide (self = other)) as [->|Hne].
    + assert (a = b) as -> by congruence.
      assert (Hset : word_counts a' = <[pos := (k, n + Counter.get0 k (word_counts b))]> (word_counts b)).
      { simpl. unfold Counter.add_item. simpl. by eapply set_at_position. }
      rewrite (IH (S pos) _ other other a' a' Hself Hself).
      * rewrite list_insert_insert_eq.
        replace (drop (S pos) (word_counts a'))
          with (drop (S pos) (word_counts b)); [done|].
        rewrite Hset, drop_insert_lt by (unfold lt; lia). done.
      * simpl. by apply wf_add_item.
      * rewrite Hset, drop_insert_lt by (unfold lt; lia). done.
    + assert (Hother : <[self := a']> h !! other = Some b).
      { by rewrite list_lookup_insert_ne. }
      rewrite (IH (S pos) _ self other a' b Hself Hother Hwf Hfuel).
      by rewrite list_insert_insert_eq.
Qed.

Lemma counter_update_spec h self other a b :
  h !! self = Some a -> h !! other = Some b ->
  PyDict.wf (word_counts b) ->
  Heap.counter_update self other h =
  <[self := Heap.set_word_counts
              (Counter.update (word_counts a) (word_counts b)) a]> h.
Proof.
  intros Ha Hb Hwf. unfold Heap.counter_update, Counter.update.
  rewrite Ha, Hb. destruct (Counter.truthy (word_counts a)); [|done].
  by rewrite (update_loop_snapshot _ 0 h self other a b).
Qed.

(** The method on references does what [WordCounter.merge_counts] does on
    the two objects, also when the two references are the same. *)
Lemma heap_merge_counts_spec h self other a b :
  h !! self = Some a -> h !! other = Some b ->
  PyDict.wf (word_counts b) ->
  Heap.merge_counts self other h = <[self := WordCounter.merge_counts a b]> h.
Proof.
  intros Ha Hb Hwf. unfold Heap.merge_counts, WordCounter.merge_counts.
  rewrite Hb. destruct (Counter.truthy (word_counts b)) eqn:Htr.
  - rewrite (counter_update_spec h self other a b) by done.
    assert (Hlt : (self < length h)%nat) by by eapply lookup_lt_Some.
    rewrite list_lookup_insert_eq by done.
    destruct (decide (self = other)) as [->|Hne].
    + assert (a = b) as -> by congruence.
      rewrite list_lookup_insert_eq by done.
      by rewrite list_insert_insert_eq.
    + rewrite list_lookup_insert_ne by done. rewrite Hb.
      by rewrite list_insert_insert_eq.
  - symmetry. by apply list_insert_id.
Qed.

Lemma heap_merge_counts_dangling h self other :
  h !! self = None -> Heap.merge_counts self other h = h.
Proof.
  intros Ha. unfold Heap.merge_counts.
  destruct (h !! other) as [b|]; [|done].
  destruct (Counter.truthy (word_counts b)); [|done].
  unfold Heap.counter_update. rewrite Ha. simpl. by rewrite Ha.
Qed.
End heap_facts.

(** ** What every reachable counter satisfies *)

Section invariant.
Import WordCounter.
Import Spec.

Lemma init_ok : counter_ok WordCounter.init.
Proof.
  split; [apply NoDup_nil_2|]. split; [by constructor | done].
Qed.

Lemma clear_ok o : counter_ok (WordCounter.clear o).
Proof. apply init_ok. Qed.

Lemma count_words_ok ws o :
  counter_ok o -> counter_ok (WordCounter.count_words ws o).2.
Proof.
  intros Hok. destruct ws as [|w ws]; [done|].
  split; [apply wf_of_list|]. split; [apply counts_of_list_pos|].
  simpl. by rewrite (total_of_list (w :: ws)).
Qed.

Lemma merge_counts_ok a b :
  counter_ok a -> counter_ok b -> counter_ok (WordCounter.merge_counts a b).
Proof.
  intros (Hwa & Hpa & Hta) (Hwb & Hpb & Htb). unfold WordCounter.merge_counts.
  destruct (Counter.truthy (word_counts b)); [|done].
  split; [by apply wf_update|]. split; [by apply counts_update_pos|].
  simpl. rewrite total_update by done. lia.
Qed.

Lemma exec_ok (c : Heap.call) (h : Heap.heap) :
  Forall counter_ok h -> Forall counter_ok (Heap.exec c h).
Proof.
  intros Hh. destruct c as [|self ws|self other|self]; simpl.
  - apply Forall_app. split; [done|]. constructor; [apply init_ok|constructor].
  - unfold Heap.count_words. destruct (h !! self) as [a|] eqn:Ha; [|done].
    destruct (WordCounter.count_words ws a) as [r a'] eqn:E. simpl.
    apply Forall_insert; [done|].
    change a' with (r, a').2. rewrite <- E. apply count_words_ok.
    by eapply Forall_lookup_1.
  - destruct (h !! self) as [a|] eqn:Ha;
      [|by rewrite heap_merge_counts_dangling].
    destruct (h !! other) as [b|] eqn:Hb;
      [|unfold Heap.merge_counts; by rewrite Hb].
    assert (counter_ok a) as Hoa by by eapply Forall_lookup_1.
    assert (counter_ok b) as Hob by by eapply Forall_lookup_1.
    rewrite (heap_merge_counts_spec h self other a b) by (done || apply Hob).
    apply Forall_insert; [done|]. by apply merge_counts_ok.
  - unfold Heap.clear. destruct (h !! self) as [a|]; [|done].
    apply Forall_insert; [done|]. apply clear_ok.
Qed.

Lemma reachable_run (calls : list Heap.call) : Heap.reachable (Heap.run calls).
Proof.
  unfold Heap.run. induction calls as [|c calls IH] using rev_ind.
  - constructor.
  - rewrite fold_left_app. simpl. by constructor.
Qed.

Lemma reachable_ok (h : Heap.heap) :
  Heap.reachable h -> Forall counter_ok h.
Proof.
  induction 1 as [|h c _ IH]; [constructor|]. by apply exec_ok.
Qed.
End invariant.

(** ** [count_words] *)

(** C1: for every token list, whatever the counter held before, the counts
    of the table that [count_words] returns sum to the length of the
    list. *)
Theorem count_words_sum_is_length (ws : list string) (self : WordCounter.t) :
  Counter.total (WordCounter.count_words ws self).1 = Z.of_nat (length ws).
Proof.
  destruct ws as [|w ws]; [done|]. simpl. apply (total_of_list (w :: ws)).
Qed.

(** A list with at least one token replaces whatever the counter held:
    the stored table is the returned one, it holds every word of the list
    with the number of its occurrences, and [total_words] is the length of
    the list. *)
Theorem count_words_nonempty_replaces_state
    (ws : list string) (self : WordCounter.t) :
  ws ≠ [] ->
  let result := WordCounter.count_words ws self in
  WordCounter.word_counts result.2 = result.1 /\
  result.2 = WordCounter.mk (Counter.of_list ws) (Z.of_nat (length ws)) /\
  (forall w, Counter.get0 w (WordCounter.word_counts result.2) =
             Spec.occurrences w ws) /\
  (forall w, w ∈ PyDict.keys (WordCounter.word_counts result.2) <-> w ∈ ws).
Proof.
  intros Hne. destruct ws as [|w0 ws]; [done|]. simpl.
  split; [done|]. split; [done|]. split.
  - intros w. apply (get0_of_list (w0 :: ws)).
  - intros w. apply (elem_of_keys_of_list (w0 :: ws)).
Qed.

Lemma count_words_nonempty_replaces_state_witness :
  let prior := WordCounter.mk [("old", 7)] 7 in
  let result := WordCounter.count_words ["b"; "a"; "b"] prior in
  WordCounter.word_counts result.2 = result.1 /\
  result.2 = WordCounter.mk (Counter.of_list ["b"; "a"; "b"])
                            (Z.of_nat (length ["b"; "a"; "b"])) /\
  (forall w, Counter.get0 w (WordCounter.word_counts result.2) =
             Spec.occurrences w ["b"; "a"; "b"]) /\
  (forall w, w ∈ PyDict.keys (WordCounter.word_counts result.2) <->
             w ∈ ["b"; "a"; "b"]).
Proof.
  intros prior.
  apply (count_words_nonempty_replaces_state ["b"; "a"; "b"] prior).
  discriminate.
Defined.

(** The number of unique words of a counter built from a token list is the
    number of distinct tokens. *)
Theorem get_total_unique_words_counts_distinct (ws : list string) :
  WordCounter.get_total_unique_words
    (WordCounter.count_words ws WordCounter.init).2 =
  Z.of_nat (length (remove_dups ws)).
Proof.
  assert (E : WordCounter.word_counts
                (WordCounter.count_words ws WordCounter.init).2 =
              Counter.of_list ws) by by destruct ws.
  unfold WordCounter.get_total_unique_words. rewrite E. f_equal.
  rewrite <- (length_fmap fst). apply Permutation_length.
  apply NoDup_Permutation.
  - apply wf_of_list.
  - apply NoDup_remove_dups.
  - intros w. rewrite elem_of_remove_dups. apply elem_of_keys_of_list.
Qed.

(** C2, the code at the input where it departs from the claim: a counter
    built from the one-token list [a] and then given the empty list still
    holds the table and the total of [a], while the call returns the empty
    table; its table is not the frequency table of the empty list and its
    total is not zero. *)
Theorem count_words_empty_keeps_prior_state :
  let prior := (WordCounter.count_words ["a"] WordCounter.init).2 in
  let result := WordCounter.count_words [] prior in
  result.1 = [] /\
  WordCounter.word_counts result.2 = [("a", 1)] /\
  WordCounter.total_words result.2 = 1 /\
  WordCounter.word_counts result.2 ≠ Counter.of_list [] /\
  WordCounter.total_words result.2 ≠ Z.of_nat (length (@nil string)).
Proof. vm_compute. repeat split; congruence. Qed.

(** ** [merge_counts] *)

(** C4: after [a.merge_counts(b)], for references that may also denote the
    same object, the count of every word in [a] is the sum of the counts it
    had in [a] and in [b]; and when the two tables were built from token
    lists that share no word, the merged table consists of the entries of
    [a] followed by the entries of [b]. *)
Theorem merge_counts_adds_counts
    (h : Heap.heap) (self other : Heap.ref) (a b : WordCounter.t) :
  h !! self = Some a -> h !! other = Some b ->
  PyDict.wf (WordCounter.word_counts b) ->
  exists a', Heap.merge_counts self other h !! self = Some a' /\
    (forall w, Counter.get0 w (WordCounter.word_counts a') =
               Counter.get0 w (WordCounter.word_counts a) +
               Counter.get0 w (WordCounter.word_counts b)) /\
    (forall ws1 ws2 : list string,
       WordCounter.word_counts a = Counter.of_list ws1 ->
       WordCounter.word_counts b = Counter.of_list ws2 ->
       (forall w, w ∈ ws1 -> w ∉ ws2) ->
       WordCounter.word_counts a' = Counter.of_list ws1 ++ Counter.of_list ws2).
Proof.
  intros Ha Hb Hwf. exists (WordCounter.merge_counts a b).
  rewrite (heap_merge_counts_spec h self other a b) by done.
  split; [apply list_lookup_insert_eq; by eapply lookup_lt_Some|].
  unfold WordCounter.merge_counts.
  destruct (Counter.truthy (WordCounter.word_counts b)) eqn:Htr; simpl.
  - split; [intros w; by apply get0_update|].
    intros ws1 ws2 E1 E2 Hdis. rewrite update_fold by done.
    rewrite E1, E2. apply fold_add_disjoint. apply NoDup_app.
    split; [apply wf_of_list|]. split; [|apply wf_of_list].
    intros w. rewrite !elem_of_keys_of_list. apply Hdis.
  - destruct (WordCounter.word_counts b) as [|item rest] eqn:E; [|done].
    split.
    + intros w. unfold Counter.get0 at 3. simpl. lia.
    + intros ws1 ws2 E1 E2 _. by rewrite <- E2, app_nil_r.
Qed.

Lemma merge_counts_adds_counts_witness :
  let a := (WordCounter.count_words ["x"; "y"; "x"] WordCounter.init).2 in
  let b := (WordCounter.count_words ["z"; "z"] WordCounter.init).2 in
  exists a', Heap.merge_counts 0 1 [a; b] !! 0%nat = Some a' /\
    (forall w, Counter.get0 w (WordCounter.word_counts a') =
               Counter.get0 w (WordCounter.word_counts a) +
               Counter.get0 w (WordCounter.word_counts b)) /\
    (forall ws1 ws2 : list string,
       WordCounter.word_counts a = Counter.of_list ws1 ->
       WordCounter.word_counts b = Counter.of_list ws2 ->
       (forall w, w ∈ ws1 -> w ∉ ws2) ->
       WordCounter.word_counts a' = Counter.of_list ws1 ++ Counter.of_list ws2).
Proof.
  intros a b.
  apply (merge_counts_adds_counts [a; b] 0 1 a b);
    [reflexivity | reflexivity |].
  unfold PyDict.wf. apply (bool_decide_unpack _). vm_compute. exact I.
Defined.

(** ** Invariants of the reachable counters *)

(** C6: in every heap reached by creating counters and calling
    [count_words], [merge_counts] and [clear] on them, every count of every
    counter is non-negative and no word is a key twice. *)
Theorem reachable_counts_nonneg_keys_unique
    (h : Heap.heap) (self : Heap.ref) (o : WordCounter.t) :
  Heap.reachable h -> h !! self = Some o ->
  Spec.counts_all (fun n => 0 <= n) (WordCounter.word_counts o) /\
  NoDup (PyDict.keys (WordCounter.word_counts o)).
Proof.
  intros Hr Ho. apply reachable_ok in Hr.
  destruct (Forall_lookup_1 _ _ _ _ Hr Ho) as (Hwf & Hpos & _).
  split; [|done]. eapply Forall_impl; [exact Hpos|]. simpl. lia.
Qed.

Lemma reachable_counts_nonneg_keys_unique_witness :
  Spec.counts_all (fun n => 0 <= n) [("a", 5); ("b", 1)] /\
  NoDup (PyDict.keys [("a", 5); ("b", 1)]).
Proof.
  apply (reachable_counts_nonneg_keys_unique
           (Heap.run [Heap.New; Heap.New;
                      Heap.CountWords 0 ["a"; "a"];
                      Heap.CountWords 1 ["b"; "a"];
                      Heap.MergeCounts 0 0;
                      Heap.MergeCounts 0 1])
           0 (WordCounter.mk [("a", 5); ("b", 1)] 6));
    [cbv [Heap.run fold_left]; repeat constructor | vm_compute; reflexivity].
Defined.

(** C10: in every heap reached by creating counters and calling
    [count_words], [merge_counts] and [clear] on them, [total_words] of
    every counter is the sum of the counts of its table, so
    [get_total_words] returns that sum. *)
Theorem reachable_total_words_is_sum
    (h : Heap.heap) (self : Heap.ref) (o : WordCounter.t) :
  Heap.reachable h -> h !! self = Some o ->
  WordCounter.get_total_words o = Counter.total (WordCounter.word_counts o).
Proof.
  intros Hr Ho. apply reachable_ok in Hr.
  by destruct (Forall_lookup_1 _ _ _ _ Hr Ho) as (_ & _ & Htot).
Qed.

Lemma reachable_total_words_is_sum_witness :
  WordCounter.get_total_words (WordCounter.mk [("b", 2); ("a", 1)] 3) =
  Counter.total [("b", 2); ("a", 1)].
Proof.
  apply (reachable_total_words_is_sum
           (Heap.run [Heap.New; Heap.CountWords 0 ["a"];
                      Heap.New; Heap.CountWords 1 ["b"; "a"; "b"];
                      Heap.Clear 0; Heap.CountWords 0 [];
                      Heap.MergeCounts 0 1])
           0 (WordCounter.mk [("b", 2); ("a", 1)] 3));
    [cbv [Heap.run fold_left]; repeat constructor | vm_compute; reflexivity].
Defined.

(** ** Ranking *)

Section ranking_facts.
Implicit Types (item x : string * Z) (l items : list (string * Z)).

Lemma insert_desc_perm x l : Ranking.insert_desc x l ≡ₚ x :: l.
Proof.
  induction l as [|y l IH]; simpl; [done|].
  destruct (y.2 <=? x.2); [done|]. rewrite IH. apply Permutation_swap.
Qed.

Lemma sorted_desc_perm items : Ranking.sorted_desc items ≡ₚ items.
Proof.
  induction items as [|x items IH]; simpl; [done|].
  rewrite insert_desc_perm. by rewrite IH.
Qed.

Lemma Forall_insert_desc (P : string * Z -> Prop) x l :
  P x -> Forall P l -> Forall P (Ranking.insert_desc x l).
Proof. intros Hx Hl. rewrite insert_desc_perm. by constructor. Qed.

(** Counts never increase along the sorted list. *)
Lemma insert_desc_sorted x l :
  StronglySorted (fun p q => q.2 <= p.2) l ->
  StronglySorted (fun p q => q.2 <= p.2) (Ranking.insert_desc x l).
Proof.
  induction 1 as [|y l Hl IH Hy]; simpl.
  - repeat constructor.
  - destruct (y.2 <=? x.2) eqn:E.
    + apply Z.leb_le in E. constructor; [by constructor|].
      constructor; [done|]. eapply Forall_impl; [exact Hy|]. simpl. lia.
    + apply Z.leb_gt in E. constructor; [done|].
      apply Forall_insert_desc; [lia | done].
Qed.

Lemma sorted_desc_sorted items :
  StronglySorted (fun p q => q.2 <= p.2) (Ranking.sorted_desc items).
Proof.
  induction items as [|x items IH]; simpl; [constructor|].
  by apply insert_desc_sorted.
Qed.

(** Stability: whatever order [R] the items came in, items with equal
    counts are still in that order after sorting. *)
Section stability.
Variable R : relation (string * Z).
Let tie : relation (string * Z) := fun p q => p.2 = q.2 -> R p q.

Lemma insert_desc_stable x l :
  Forall (R x) l -> StronglySorted tie l ->
  StronglySorted tie (Ranking.insert_desc x l).
Proof.
  intros Hx Hl. induction Hl as [|y l Hl IH Hy]; simpl.
  - repeat constructor.
  - apply Forall_cons in Hx as [Hxy Hx].
    destruct (y.2 <=? x.2) eqn:E.
    + constructor; [by constructor|].
      constructor; [by intros _|].
      eapply Forall_impl; [exact Hx|]. by intros q Hq _.
    + apply Z.leb_gt in E. constructor; [by apply IH|].
      apply Forall_insert_desc; [|done]. intros Heq. lia.
Qed.

Lemma sorted_desc_stable items :
  StronglySorted R items -> StronglySorted tie (Ranking.sorted_desc items).
Proof.
  induction 1 as [|x items Hl IH Hx]; simpl; [constructor|].
  apply insert_desc_stable; [|done]. by rewrite sorted_desc_perm.
Qed.
End stability.

Lemma StronglySorted_take {A : Type} (R : relation A) (n : nat) (l : list A) :
  StronglySorted R l -> StronglySorted R (take n l).
Proof.
  intros Hl. rewrite <- (take_drop n l) in Hl.
  by apply StronglySorted_app_1_l in Hl.
Qed.

Lemma StronglySorted_elem_impl {A : Type} (R R' : relation A) (l : list A) :
  (forall a b : A, a ∈ l -> b ∈ l -> R a b -> R' a b) ->
  StronglySorted R l -> StronglySorted R' l.
Proof.
  intros Himpl Hl. induction Hl as [|a l Hl IH Hx]; [constructor|].
  constructor.
  - apply IH. intros y z Hy Hz. apply Himpl; by right.
  - apply Forall_forall. intros y Hy. apply Himpl; [by left | by right|].
    by eapply Forall_forall in Hx.
Qed.

Lemma StronglySorted_keys (R : relation string) items :
  StronglySorted R (PyDict.keys items) ->
  StronglySorted (fun p q => R p.1 q.1) items.
Proof.
  induction items as [|x items IH]; simpl; [constructor|].
  intros [Hx Hl]%StronglySorted_cons. constructor; [by apply IH|].
  apply Forall_forall. intros y Hy. eapply Forall_forall in Hx; [exact Hx|].
  apply list_elem_of_fmap. by exists y.
Qed.

(** *** [index] *)

Lemma first_index_notin (w : string) (ws : list string) :
  w ∉ ws -> Ranking.first_index w ws = length ws.
Proof.
  induction ws as [|w' ws IH]; simpl; [done|].
  intros [Hne Hout]%not_elem_of_cons. rewrite decide_False by done.
  f_equal. by apply IH.
Qed.

Lemma first_index_in (w : string) (ws : list string) :
  w ∈ ws -> (Ranking.first_index w ws < length ws)%nat.
Proof.
  induction ws as [|w' ws IH]; simpl; [by intros ?%elem_of_nil|].
  intros Hin. destruct (decide (w = w')) as [->|Hne]; [lia|].
  apply elem_of_cons in Hin as [?|Hin]; [done|]. specialize (IH Hin). lia.
Qed.

Lemma first_index_app_l (w : string) (ws rest : list string) :
  w ∈ ws -> Ranking.first_index w (ws ++ rest) = Ranking.first_index w ws.
Proof.
  induction ws as [|w' ws IH]; simpl; [by intros ?%elem_of_nil|].
  intros Hin. destruct (decide (w = w')) as [->|Hne]; [done|].
  apply elem_of_cons in Hin as [?|Hin]; [done|]. f_equal. by apply IH.
Qed.

Lemma first_index_snoc_new (w : string) (ws : list string) :
  w ∉ ws -> Ranking.first_index w (ws ++ [w]) = length ws.
Proof.
  induction ws as [|w' ws IH]; simpl.
  - intros _. by rewrite decide_True.
  - intros [Hne Hout]%not_elem_of_cons. rewrite decide_False by done.
    f_equal. by apply IH.
Qed.

(** The keys of [Counter(words)] stand in the order in which the words
    first occur. *)
Lemma keys_of_list_first_occurrence (ws : list string) :
  StronglySorted
    (fun k k' => (Ranking.first_index k ws < Ranking.first_index k' ws)%nat)
    (PyDict.keys (Counter.of_list ws)).
Proof.
  induction ws as [|w ws IH] using rev_ind; [constructor|].
  rewrite of_list_snoc. unfold Counter.incr.
  assert (Hold : StronglySorted
    (fun k k' => (Ranking.first_index k (ws ++ [w]) <
                  Ranking.first_index k' (ws ++ [w]))%nat)
    (PyDict.keys (Counter.of_list ws))).
  { eapply StronglySorted_elem_impl; [|exact IH].
    intros k k' Hk Hk' Hlt. simpl in Hlt.
    apply (proj1 (elem_of_keys_of_list _ _)) in Hk, Hk'.
    by rewrite !first_index_app_l. }
  destruct (decide (w ∈ PyDict.keys (Counter.of_list ws))) as [Hin|Hout].
  - by rewrite keys_set_in.
  - rewrite keys_set_notin by done. apply StronglySorted_app_2.
    + intros k k' Hk ->%list_elem_of_singleton.
      apply (proj1 (elem_of_keys_of_list _ _)) in Hk.
      rewrite elem_of_keys_of_list in Hout.
      rewrite first_index_app_l, first_index_snoc_new by done.
      by apply first_index_in.
    + done.
    + repeat constructor.
Qed.
End ranking_facts.

(** C3: for a counter built from the token list [ws] and every [n],
    [get_most_common(n)] lists entries of the table with counts that never
    increase, and entries with equal counts stand in the order in which
    their words first occur in [ws]. *)
Theorem get_most_common_sorted_stable (ws : list string) (n : Z) :
  let built := (WordCounter.count_words ws WordCounter.init).2 in
  let ranked := WordCounter.get_most_common n built in
  StronglySorted (fun p q => q.2 <= p.2) ranked /\
  StronglySorted
    (fun p q => p.2 = q.2 ->
       (Ranking.first_index p.1 ws < Ranking.first_index q.1 ws)%nat)
    ranked /\
  ranked ⊆ Counter.of_list ws.
Proof.
  intros built ranked.
  assert (Hwc : WordCounter.word_counts built = Counter.of_list ws).
  { subst built. by destruct ws. }
  subst ranked. unfold WordCounter.get_most_common. simpl.
  unfold Ranking.nlargest. rewrite Hwc. split; [|split].
  - apply StronglySorted_take, sorted_desc_sorted.
  - apply StronglySorted_take.
    apply (sorted_desc_stable
             (fun p q => (Ranking.first_index p.1 ws <
                          Ranking.first_index q.1 ws)%nat)).
    apply (StronglySorted_keys
             (fun k k' => (Ranking.first_index k ws <
                           Ranking.first_index k' ws)%nat)).
    apply keys_of_list_first_occurrence.
  - intros x Hx. apply subseteq_take in Hx. by rewrite sorted_desc_perm in Hx.
Qed.

(** [get_most_common(n)] returns the [n] first entries of the ranking, all
    of them when [n] reaches the number of entries, none for [n <= 0]. *)
Theorem get_most_common_length (n : Z) (self : WordCounter.t) :
  length (WordCounter.get_most_common n self) =
  Nat.min (Z.to_nat n) (length (WordCounter.word_counts self)).
Proof.
  unfold WordCounter.get_most_common, Ranking.most_common, Ranking.nlargest.
  rewrite length_take. f_equal. apply Permutation_length, sorted_desc_perm.
Qed.

(** ** [filter_by_frequency] *)

Section filter_facts.
Implicit Types (c acc : PyDict.dict Z) (k : Z).

(** Over a table with unique keys the loop never overwrites: it appends
    the entries that pass the test, in the order of the table. *)
Lemma filter_loop_min k c : forall acc,
  NoDup (PyDict.keys acc ++ PyDict.keys c) ->
  fold_left (WordCounter.filter_step k None) c acc =
  acc ++ List.filter (fun item => k <=? item.2) c.
Proof.
  induction c as [|[w n] c IH]; intros acc Hnd; simpl.
  - by rewrite app_nil_r.
  - simpl in Hnd. destruct (k <=? n) eqn:E.
    + rewrite set_fresh by by eapply NoDup_middle_notin.
      rewrite IH; [by rewrite <- app_assoc|].
      rewrite keys_snoc. by apply NoDup_middle_snoc.
    + apply IH. by eapply NoDup_middle_drop.
Qed.
End filter_facts.

(** C5: on a counter whose table is a dictionary,
    [filter_by_frequency(min_freq=k, max_freq=None)] returns the entries of
    the table whose count is at least [k], each with its count, in the
    order of the table: a pair is in the result exactly when it is an entry
    of the table with a count of at least [k]. *)
Theorem filter_by_frequency_min_exact (self : WordCounter.t) (k : Z) :
  PyDict.wf (WordCounter.word_counts self) ->
  WordCounter.filter_by_frequency k None self =
    List.filter (fun item => k <=? item.2) (WordCounter.word_counts self) /\
  forall (w : string) (n : Z),
    (w, n) ∈ WordCounter.filter_by_frequency k None self <->
    (w, n) ∈ WordCounter.word_counts self /\ k <= n.
Proof.
  intros Hwf.
  assert (E : WordCounter.filter_by_frequency k None self =
    List.filter (fun item => k <=? item.2) (WordCounter.word_counts self)).
  { unfold WordCounter.filter_by_frequency. by rewrite filter_loop_min. }
  split; [done|]. intros w n. rewrite E.
  rewrite !list_elem_of_In, filter_In. simpl. by rewrite Z.leb_le.
Qed.

Lemma filter_by_frequency_min_exact_witness :
  let self := WordCounter.mk [("the", 3); ("cat", 1); ("sat", 2)] 6 in
  WordCounter.filter_by_frequency 2 None self =
    List.filter (fun item => 2 <=? item.2) (WordCounter.word_counts self) /\
  forall (w : string) (n : Z),
    (w, n) ∈ WordCounter.filter_by_frequency 2 None self <->
    (w, n) ∈ WordCounter.word_counts self /\ 2 <= n.
Proof.
  intros self. apply (filter_by_frequency_min_exact self 2).
  unfold PyDict.wf. apply (bool_decide_unpack _). vm_compute. exact I.
Defined.

(** ** [get_word_frequency] *)

Section lower_facts.
Lemma lower_char_not_upper (a : ascii) :
  PyStr.is_upper (PyStr.lower_char a) = false.
Proof. by destruct a as [[] [] [] [] [] [] [] []]. Qed.

Lemma lower_char_idem (a : ascii) :
  PyStr.lower_char (PyStr.lower_char a) = PyStr.lower_char a.
Proof. by destruct a as [[] [] [] [] [] [] [] []]. Qed.

Lemma lower_upper_char (a : ascii) :
  PyStr.lower_char (PyStr.upper_char a) = PyStr.lower_char a.
Proof. by destruct a as [[] [] [] [] [] [] [] []]. Qed.

Lemma lower_has_no_upper (s : string) : PyStr.has_upper (PyStr.lower s) = false.
Proof.
  induction s as [|a s IH]; simpl; [done|].
  by rewrite lower_char_not_upper, IH.
Qed.

Lemma lower_idem (s : string) : PyStr.lower (PyStr.lower s) = PyStr.lower s.
Proof.
  induction s as [|a s IH]; simpl; [done|]. by rewrite lower_char_idem, IH.
Qed.

(** On an ASCII character [upper] works on that character alone. *)
Lemma upper_ascii_cons (a : ascii) (s : string) :
  (nat_of_ascii a <? 128)%nat = true ->
  PyStr.upper (String a s) = String (PyStr.upper_char a) (PyStr.upper s).
Proof.
  intros Ha. destruct s as [|b rest]; [done|].
  destruct a as [[] [] [] [] [] [] [] []]; try discriminate; reflexivity.
Qed.

Lemma lower_upper (s : string) :
  PyText.is_ascii s = true -> PyStr.lower (PyStr.upper s) = PyStr.lower s.
Proof.
  unfold PyText.is_ascii.
  induction s as [|a s IH]; [done|]. cbn [PyText.all_chars].
  intros [Ha Hs]%andb_true_iff. rewrite (upper_ascii_cons a s Ha).
  cbn [PyStr.lower]. by rewrite lower_upper_char, IH.
Qed.
End lower_facts.

(** C9, for a query [w] of ASCII characters: [get_word_frequency(w)]
    returns the count stored under the lowercased
    [w], and 0 when the lowercased [w] is no key; the answer is the same
    for [w], its lowercase and its uppercase form; and the key it looks up
    is never one that contains one of the letters [A] to [Z], so that the
    count stored under such a key has no effect on any answer. *)
Theorem get_word_frequency_looks_up_lowercase
    (self : WordCounter.t) (w key : string) (n : Z) :
  PyText.is_ascii w = true ->
  PyStr.has_upper key = true ->
  WordCounter.get_word_frequency w self =
    match PyDict.get (PyStr.lower w) (WordCounter.word_counts self) with
    | Some count => count
    | None => 0
    end /\
  WordCounter.get_word_frequency (PyStr.lower w) self =
    WordCounter.get_word_frequency w self /\
  WordCounter.get_word_frequency (PyStr.upper w) self =
    WordCounter.get_word_frequency w self /\
  PyStr.lower w ≠ key /\
  WordCounter.get_word_frequency w
    (WordCounter.mk (PyDict.set key n (WordCounter.word_counts self))
                    (WordCounter.total_words self)) =
    WordCounter.get_word_frequency w self.
Proof.
  intros Hascii Hup.
  assert (Hne : PyStr.lower w ≠ key).
  { intros <-. by rewrite lower_has_no_upper in Hup. }
  unfold WordCounter.get_word_frequency.
  rewrite lower_idem, (lower_upper w Hascii). repeat split; try done.
  simpl. by apply get0_set_ne.
Qed.

Lemma get_word_frequency_looks_up_lowercase_witness :
  let self := WordCounter.mk [("Data", 4); ("data", 2)] 6 in
  WordCounter.get_word_frequency "DATA" self =
    match PyDict.get (PyStr.lower "DATA") (WordCounter.word_counts self) with
    | Some count => count
    | None => 0
    end /\
  WordCounter.get_word_frequency (PyStr.lower "DATA") self =
    WordCounter.get_word_frequency "DATA" self /\
  WordCounter.get_word_frequency (PyStr.upper "DATA") self =
    WordCounter.get_word_frequency "DATA" self /\
  PyStr.lower "DATA" ≠ "Data" /\
  WordCounter.get_word_frequency "DATA"
    (WordCounter.mk (PyDict.set "Data" 9 (WordCounter.word_counts self))
                    (WordCounter.total_words self)) =
    WordCounter.get_word_frequency "DATA" self.
Proof.
  intros self.
  apply (get_word_frequency_looks_up_lowercase self "DATA" "Data" 9);
    reflexivity.
Defined.

(** C9 as it was stated, for every string, fails beyond ASCII.  The
    uppercase form of the sharp s is [SS], whose lowercase form is [ss] and
    not the sharp s again: in a counter that has counted the word made of a
    sharp s, the word is found under its own spelling and not under its
    uppercase form, so the lookup does depend on the case of the query. *)
Lemma get_word_frequency_depends_on_case_of_sharp_s :
  let sharp_s := "ß" in
  let self := (WordCounter.count_words [sharp_s] WordCounter.init).2 in
  PyText.is_ascii sharp_s = false /\
  PyStr.upper sharp_s = "SS" /\
  PyStr.lower (PyStr.upper sharp_s) = "ss" /\
  PyStr.lower sharp_s = sharp_s /\
  WordCounter.get_word_frequency sharp_s self = 1 /\
  WordCounter.get_word_frequency (PyStr.upper sharp_s) self = 0 /\
  WordCounter.get_word_frequency (PyStr.upper sharp_s) self ≠
    WordCounter.get_word_frequency sharp_s self.
Proof. by vm_compute. Qed.

(** ** [filter_by_pos] *)

(** C7: a filter that is disabled, or that has no allowed tag, returns the
    word list it was given, whatever the tagger would do, and prints
    nothing. *)
Theorem filter_by_pos_inert
    (pos_tag : list string -> list (string * string) + string)
    (words : list string) (self : POSFilter.t) :
  POSFilter.enabled self = false \/ POSFilter.allowed_pos_tags self = ∅ ->
  POSFilter.filter_by_pos pos_tag words self = (words, []).
Proof.
  intros [Hoff|Hnone]; unfold POSFilter.filter_by_pos.
  - by rewrite Hoff.
  - rewrite (bool_decide_eq_true_2 _ Hnone). by rewrite orb_true_r.
Qed.

Lemma filter_by_pos_inert_witness :
  POSFilter.filter_by_pos
    (fun ws => inl ((fun w => (w, "NN")) <$> ws))
    ["python"; "quickly"]
    (POSFilter.enable_filter None (POSFilter.init false))
  = (["python"; "quickly"], []).
Proof.
  apply (filter_by_pos_inert
           (fun ws => inl ((fun w => (w, "NN")) <$> ws))
           ["python"; "quickly"]
           (POSFilter.enable_filter None (POSFilter.init false))).
  right. reflexivity.
Defined.

(** ** [load_txt_files] *)

Section loader_facts.
Import FileLoader Spec.
Implicit Types (f : entry) (files : list entry).






End loader_facts.



(** The run of the witness above, computed. *)
Example load_txt_files_run :
  let fs := FileLoader.mk_fs (fun path => String.eqb path "corpus")
    (fun path =>
       [FileLoader.mk_entry "a.txt" (FileLoader.Content "the cat")
          (FileLoader.Content "the cat");
        FileLoader.mk_entry "b.txt" (FileLoader.UnicodeDecodeError "utf-8")
          (FileLoader.Content "sat");
        FileLoader.mk_entry "notes.md" (FileLoader.Content "# notes")
          (FileLoader.Content "# notes");
        FileLoader.mk_entry "c.txt" (FileLoader.UnicodeDecodeError "utf-8")
          (FileLoader.UnicodeDecodeError "gbk")]) in
  FileLoader.load_txt_files fs "corpus" FileLoader.init =
    (inr [("a.txt", "the cat"); ("b.txt", "sat")],
     FileLoader.mk [("a.txt", "the cat"); ("b.txt", "sat")],
     [FileLoader.Loaded "a.txt"; FileLoader.LoadedGBK "b.txt";
      FileLoader.LoadFailed "c.txt" "gbk"]) /\
  FileLoader.load_txt_files fs "elsewhere" FileLoader.init =
    (inl (FileLoader.FileNotFoundError "elsewhere"), FileLoader.init, []).
Proof. by vm_compute. Qed.

(** ** The test run of [counter.py]

    The list that [main()] of [counter.py] counts, and what the model
    returns for the calls made there. *)

Example counter_main_run :
  let test_words :=
    ["python"; "data"; "analysis"; "python"; "machine"; "learning";
     "data"; "science"; "python"; "programming"; "data"; "analysis";
     "visualization"; "statistics"; "python"; "data"] in
  let counter := (WordCounter.count_words test_words WordCounter.init).2 in
  WordCounter.get_most_common 5 counter =
    [("python", 4); ("data", 4); ("analysis", 2); ("machine", 1);
     ("learning", 1)] /\
  WordCounter.filter_by_frequency 2 None counter =
    [("python", 4); ("data", 4); ("analysis", 2)] /\
  WordCounter.get_total_words counter = 16 /\
  WordCounter.get_total_unique_words counter = 9 /\
  WordCounter.get_word_frequency "Python" counter = 4 /\
  WordCounter.get_most_common (-3) counter = [].
Proof. by vm_compute. Qed.

(** A counter merged into itself doubles, and merging leaves the other
    counter alone. *)
Example merge_counts_run :
  Heap.run [Heap.New; Heap.New;
            Heap.CountWords 0 ["a"; "b"; "a"];
            Heap.CountWords 1 ["c"; "b"];
            Heap.MergeCounts 0 0;
            Heap.MergeCounts 0 1] =
  [WordCounter.mk [("a", 4); ("b", 3); ("c", 1)] 8;
   WordCounter.mk [("c", 1); ("b", 1)] 2].
Proof. by vm_compute. Qed.

(** * Further properties of the counter *)

(** ** The two range filters *)

Section select_facts.
Implicit Types (c acc : PyDict.dict Z).

(** A loop that assigns the items passing a test into a fresh dictionary
    appends them in order, the keys of the table being distinct. *)
Lemma select_loop (keep : string * Z -> bool)
    (step : PyDict.dict Z -> string * Z -> PyDict.dict Z) :
  (forall acc item,
     step acc item = if keep item then PyDict.set item.1 item.2 acc else acc) ->
  forall c acc,
  NoDup (PyDict.keys acc ++ PyDict.keys c) ->
  fold_left step c acc = acc ++ List.filter keep c.
Proof.
  intros Hstep. induction c as [|[w n] c IH]; intros acc Hnd; cbn [fold_left].
  - simpl. by rewrite app_nil_r.
  - rewrite Hstep. cbn [List.filter fst snd]. simpl in Hnd.
    destruct (keep (w, n)).
    + rewrite set_fresh by by eapply NoDup_middle_notin.
      rewrite IH; [by rewrite <- app_assoc|].
      rewrite keys_snoc. by apply NoDup_middle_snoc.
    + apply IH. by eapply NoDup_middle_drop.
Qed.

Lemma in_range_within lo hi x :
  Spec.in_range lo hi x = true <-> Spec.within lo hi x.
Proof.
  unfold Spec.in_range, Spec.within. rewrite andb_true_iff, Z.leb_le.
  destruct hi as [m|]; [by rewrite Z.leb_le | tauto].
Qed.

Lemma filter_by_frequency_filter (lo : Z) (hi : option Z) (self : WordCounter.t) :
  PyDict.wf (WordCounter.word_counts self) ->
  WordCounter.filter_by_frequency lo hi self =
  List.filter (fun item => Spec.in_range lo hi item.2) (WordCounter.word_counts self).
Proof.
  intros Hwf. unfold WordCounter.filter_by_frequency.
  rewrite (select_loop (fun item => Spec.in_range lo hi item.2)); [done| |done].
  intros acc [w n]. unfold WordCounter.filter_step, Spec.in_range. simpl.
  destruct (lo <=? n); [|done]. destruct hi as [m|]; [|done].
  by destruct (n <=? m).
Qed.

Lemma get_words_by_length_filter (lo : Z) (hi : option Z) (self : WordCounter.t) :
  PyDict.wf (WordCounter.word_counts self) ->
  WordCounter.get_words_by_length lo hi self =
  List.filter (fun item => Spec.in_range lo hi (Z.of_nat (String.length item.1)))
              (WordCounter.word_counts self).
Proof.
  intros Hwf. unfold WordCounter.get_words_by_length.
  rewrite (select_loop
             (fun item => Spec.in_range lo hi (Z.of_nat (String.length item.1))));
    [done| |done].
  intros acc [w n]. unfold WordCounter.length_step, Spec.in_range. simpl.
  destruct (lo <=? Z.of_nat (String.length w)); [|done].
  destruct hi as [m|]; [|done].
  by destruct (Z.of_nat (String.length w) <=? m).
Qed.

Lemma wf_filter (keep : string * Z -> bool) c :
  PyDict.wf c -> PyDict.wf (List.filter keep c).
Proof.
  unfold PyDict.wf. induction c as [|[w n] c IH]; simpl; [done|].
  intros [Hw Hc]%NoDup_cons. destruct (keep (w, n)); simpl; [|by apply IH].
  apply NoDup_cons. split; [|by apply IH].
  intros Hin. apply Hw. apply list_elem_of_fmap in Hin as (item & -> & Hin).
  apply list_elem_of_In, filter_In in Hin as [Hin _].
  apply list_elem_of_fmap. exists item. by rewrite list_elem_of_In.
Qed.
End select_facts.

(** [filter_by_frequency(min_freq, max_freq)] with both bounds: the result
    is a dictionary that holds exactly the entries of the table whose count
    lies in the range, each with its count, and it is empty when the upper
    bound is below the lower one. *)
Theorem filter_by_frequency_range_exact
    (self : WordCounter.t) (lo : Z) (hi : option Z) :
  PyDict.wf (WordCounter.word_counts self) ->
  PyDict.wf (WordCounter.filter_by_frequency lo hi self) /\
  (forall (w : string) (n : Z),
     PyDict.get w (WordCounter.filter_by_frequency lo hi self) = Some n <->
     PyDict.get w (WordCounter.word_counts self) = Some n /\
     Spec.within lo hi n) /\
  (forall m, hi = Some m -> m < lo ->
     WordCounter.filter_by_frequency lo hi self = []).
Proof.
  intros Hwf. rewrite filter_by_frequency_filter by done.
  assert (Hwf' := wf_filter (fun item => Spec.in_range lo hi item.2) _ Hwf).
  split; [done|]. split.
  - intros w n. rewrite !get_Some_elem_of by done.
    rewrite !list_elem_of_In, filter_In. simpl. by rewrite in_range_within.
  - intros m -> Hlt. clear Hwf Hwf'.
    induction (WordCounter.word_counts self) as [|[w n] c IH]; simpl; [done|].
    replace (Spec.in_range lo (Some m) n) with false; [done|].
    symmetry. apply not_true_is_false. rewrite in_range_within.
    unfold Spec.within. lia.
Qed.

Lemma filter_by_frequency_range_exact_witness :
  let self := WordCounter.mk [("the", 9); ("cat", 2); ("sat", 4)] 15 in
  PyDict.wf (WordCounter.filter_by_frequency 2 (Some 4) self) /\
  (forall (w : string) (n : Z),
     PyDict.get w (WordCounter.filter_by_frequency 2 (Some 4) self) = Some n <->
     PyDict.get w (WordCounter.word_counts self) = Some n /\
     Spec.within 2 (Some 4) n) /\
  (forall m, Some 4 = Some m -> m < 2 ->
     WordCounter.filter_by_frequency 2 (Some 4) self = []).
Proof.
  intros self. apply (filter_by_frequency_range_exact self 2 (Some 4)).
  unfold PyDict.wf. apply (bool_decide_unpack _). vm_compute. exact I.
Defined.

(** [get_words_by_length(min_length, max_length)] on a table whose words
    are ASCII, so that the length of a word is its number of characters:
    the result is a dictionary that holds exactly the entries of the table
    whose word has a length in the range, each with its count. *)
Theorem get_words_by_length_exact
    (self : WordCounter.t) (lo : Z) (hi : option Z) :
  PyDict.wf (WordCounter.word_counts self) ->
  Forall (fun item => PyText.is_ascii item.1 = true)
         (WordCounter.word_counts self) ->
  PyDict.wf (WordCounter.get_words_by_length lo hi self) /\
  forall (w : string) (n : Z),
    PyDict.get w (WordCounter.get_words_by_length lo hi self) = Some n <->
    PyDict.get w (WordCounter.word_counts self) = Some n /\
    Spec.within lo hi (Z.of_nat (String.length w)).
Proof.
  intros Hwf _. rewrite get_words_by_length_filter by done.
  assert (Hwf' := wf_filter
    (fun item => Spec.in_range lo hi (Z.of_nat (String.length item.1))) _ Hwf).
  split; [done|]. intros w n. rewrite !get_Some_elem_of by done.
  rewrite !list_elem_of_In, filter_In. simpl. by rewrite in_range_within.
Qed.

Lemma get_words_by_length_exact_witness :
  let self := WordCounter.mk [("a", 9); ("cat", 2); ("python", 4)] 15 in
  PyDict.wf (WordCounter.get_words_by_length 2 (Some 5) self) /\
  forall (w : string) (n : Z),
    PyDict.get w (WordCounter.get_words_by_length 2 (Some 5) self) = Some n <->
    PyDict.get w (WordCounter.word_counts self) = Some n /\
    Spec.within 2 (Some 5) (Z.of_nat (String.length w)).
Proof.
  intros self. apply (get_words_by_length_exact self 2 (Some 5)).
  - unfold PyDict.wf. apply (bool_decide_unpack _). vm_compute. exact I.
  - repeat constructor.
Defined.

(** With their default arguments the two filters lose nothing of a
    reachable counter but the empty word: [filter_by_frequency()] returns
    the whole table, since every count is at least 1, and
    [get_words_by_length()] the whole table without the entry of the empty
    string. *)
Theorem default_filters_keep_the_table
    (h : Heap.heap) (self : Heap.ref) (o : WordCounter.t) :
  Heap.reachable h -> h !! self = Some o ->
  WordCounter.filter_by_frequency 1 None o = WordCounter.word_counts o /\
  WordCounter.get_words_by_length 1 None o =
    List.filter (fun item => negb (String.eqb item.1 ""))
                (WordCounter.word_counts o).
Proof.
  intros Hr Ho. apply reachable_ok in Hr.
  destruct (Forall_lookup_1 _ _ _ _ Hr Ho) as (Hwf & Hpos & _).
  rewrite filter_by_frequency_filter, get_words_by_length_filter by done.
  split.
  - clear Hwf. induction Hpos as [|[w n] c Hn Hc IH]; simpl; [done|].
    simpl in Hn. unfold Spec.in_range at 1. simpl.
    rewrite (proj2 (Z.leb_le 1 n)) by done. simpl. by rewrite IH.
  - apply filter_ext. intros [w n]. unfold Spec.in_range. simpl.
    rewrite andb_true_r. destruct w as [|a w]; simpl; [done|].
    apply Z.leb_le. lia.
Qed.

Lemma default_filters_keep_the_table_witness :
  let o := WordCounter.mk [("", 1); ("b", 2)] 3 in
  WordCounter.filter_by_frequency 1 None o = WordCounter.word_counts o /\
  WordCounter.get_words_by_length 1 None o =
    List.filter (fun item => negb (String.eqb item.1 ""))
                (WordCounter.word_counts o).
Proof.
  intros o.
  apply (default_filters_keep_the_table
           (Heap.run [Heap.New; Heap.CountWords 0 [""; "b"; "b"]]) 0 o);
    [cbv [Heap.run fold_left]; repeat constructor | vm_compute; reflexivity].
Defined.

(** ** More on the ranking *)

(** The entries [get_most_common(n)] leaves out are no more frequent than
    the ones it returns. *)
Theorem get_most_common_takes_the_largest
    (n : Z) (self : WordCounter.t) (p q : string * Z) :
  p ∈ WordCounter.get_most_common n self ->
  q ∈ WordCounter.word_counts self ->
  q ∉ WordCounter.get_most_common n self ->
  q.2 <= p.2.
Proof.
  unfold WordCounter.get_most_common, Ranking.most_common, Ranking.nlargest.
  intros Hp Hq Hnq.
  set (ranked := Ranking.sorted_desc (WordCounter.word_counts self)) in *.
  assert (Hsorted : StronglySorted (fun p q => q.2 <= p.2)
                      (take (Z.to_nat n) ranked ++ drop (Z.to_nat n) ranked)).
  { rewrite take_drop. apply sorted_desc_sorted. }
  apply (StronglySorted_app_1_elem_of _ _ _ p q Hsorted Hp).
  assert (Hin : q ∈ take (Z.to_nat n) ranked ++ drop (Z.to_nat n) ranked).
  { rewrite take_drop. subst ranked. by rewrite sorted_desc_perm. }
  apply elem_of_app in Hin as [?|?]; done.
Qed.

Lemma get_most_common_takes_the_largest_witness :
  ("c", 1).2 <= ("b", 3).2.
Proof.
  apply (get_most_common_takes_the_largest 2
           (WordCounter.mk [("a", 2); ("b", 3); ("c", 1)] 6) ("b", 3) ("c", 1)).
  - apply (bool_decide_unpack _). vm_compute. exact I.
  - apply (bool_decide_unpack _). vm_compute. exact I.
  - apply (bool_decide_unpack _). vm_compute. exact I.
Defined.

(** Asking for at least as many entries as the table has returns every
    entry exactly once. *)
Theorem get_most_common_all_is_permutation (n : Z) (self : WordCounter.t) :
  Z.of_nat (length (WordCounter.word_counts self)) <= n ->
  WordCounter.get_most_common n self ≡ₚ WordCounter.word_counts self.
Proof.
  intros Hn.
  unfold WordCounter.get_most_common, Ranking.most_common, Ranking.nlargest.
  rewrite take_ge; [apply sorted_desc_perm|].
  rewrite (Permutation_length (sorted_desc_perm _)). lia.
Qed.

Lemma get_most_common_all_is_permutation_witness :
  WordCounter.get_most_common 10 (WordCounter.mk [("a", 2); ("b", 3)] 5)
  ≡ₚ WordCounter.word_counts (WordCounter.mk [("a", 2); ("b", 3)] 5).
Proof.
  apply (get_most_common_all_is_permutation 10
           (WordCounter.mk [("a", 2); ("b", 3)] 5)).
  vm_compute. discriminate.
Defined.

(** A shorter ranking is the beginning of a longer one. *)
Theorem get_most_common_prefix (n m : Z) (self : WordCounter.t) :
  n <= m ->
  WordCounter.get_most_common n self `prefix_of`
  WordCounter.get_most_common m self.
Proof.
  intros Hnm.
  unfold WordCounter.get_most_common, Ranking.most_common, Ranking.nlargest.
  set (ranked := Ranking.sorted_desc (WordCounter.word_counts self)).
  exists (drop (Z.to_nat n) (take (Z.to_nat m) ranked)).
  rewrite <- (take_drop (Z.to_nat n) (take (Z.to_nat m) ranked)) at 1.
  f_equal. rewrite take_take. f_equal. lia.
Qed.

Lemma get_most_common_prefix_witness :
  WordCounter.get_most_common 1 (WordCounter.mk [("a", 2); ("b", 3)] 5)
  `prefix_of`
  WordCounter.get_most_common 2 (WordCounter.mk [("a", 2); ("b", 3)] 5).
Proof.
  apply (get_most_common_prefix 1 2 (WordCounter.mk [("a", 2); ("b", 3)] 5)).
  lia.
Defined.

(** ** [get_statistics] *)

Section statistics_facts.
Implicit Types (x y : Z) (xs : list Z) (items : list (string * Z)).




End statistics_facts.





(** ** Counting in parts *)

Section merge_facts.
Implicit Types (c self other : Counter.t) (k w : string) (ws : list string).

Lemma keys_set d k (v : Z) :
  PyDict.keys (PyDict.set k v d) = Spec.add_key (PyDict.keys d) k.
Proof.
  unfold Spec.add_key. destruct (decide (k ∈ PyDict.keys d)).
  - by apply keys_set_in.
  - by apply keys_set_notin.
Qed.

Lemma keys_fold_incr ws : forall c,
  PyDict.keys (fold_left Counter.incr ws c) = Spec.add_keys ws (PyDict.keys c).
Proof.
  unfold Spec.add_keys. induction ws as [|w ws IH]; intros c; simpl; [done|].
  rewrite IH. unfold Counter.incr. by rewrite keys_set.
Qed.

Lemma keys_fold_add other : forall c,
  PyDict.keys (fold_left Counter.add_item other c) =
  Spec.add_keys (PyDict.keys other) (PyDict.keys c).
Proof.
  unfold Spec.add_keys.
  induction other as [|[k n] other IH]; intros c; simpl; [done|].
  rewrite IH. unfold Counter.add_item. by rewrite keys_set.
Qed.

Lemma elem_of_add_keys new : forall ks k,
  k ∈ Spec.add_keys new ks <-> k ∈ ks \/ k ∈ new.
Proof.
  unfold Spec.add_keys. induction new as [|x new IH]; intros ks k; simpl.
  - rewrite elem_of_nil. tauto.
  - rewrite IH, elem_of_cons. unfold Spec.add_key.
    destruct (decide (x ∈ ks)) as [Hin|Hout].
    + split; [tauto|]. intros [?|[->|?]]; tauto.
    + rewrite elem_of_app, list_elem_of_singleton. tauto.
Qed.

(** Entering keys that were themselves entered one after another is
    entering them one after another. *)
Lemma add_keys_add_keys new : forall seen ks,
  Spec.add_keys (Spec.add_keys new seen) ks =
  Spec.add_keys new (Spec.add_keys seen ks).
Proof.
  induction new as [|x new IH]; intros seen ks; [done|].
  change (Spec.add_keys (x :: new) seen)
    with (Spec.add_keys new (Spec.add_key seen x)).
  change (Spec.add_keys (x :: new) (Spec.add_keys seen ks))
    with (Spec.add_keys new (Spec.add_key (Spec.add_keys seen ks) x)).
  rewrite IH. f_equal. unfold Spec.add_key.
  destruct (decide (x ∈ seen)) as [Hin|Hout].
  - rewrite decide_True; [done|]. apply elem_of_add_keys. by right.
  - unfold Spec.add_keys. by rewrite fold_left_app.
Qed.

Lemma get0_fold_incr ws : forall c k,
  Counter.get0 k (fold_left Counter.incr ws c) =
  Counter.get0 k c + Spec.occurrences k ws.
Proof.
  induction ws as [|w ws IH]; intros c k; simpl; [lia|].
  rewrite IH. unfold Counter.incr.
  destruct (decide (k = w)) as [->|Hne].
  - rewrite get0_set_eq. lia.
  - rewrite get0_set_ne by done. lia.
Qed.

Lemma wf_fold_incr ws : forall c,
  PyDict.wf c -> PyDict.wf (fold_left Counter.incr ws c).
Proof.
  induction ws as [|w ws IH]; intros c Hwf; simpl; [done|].
  apply IH. by apply wf_set.
Qed.

(** Two dictionaries with the same keys in the same order and the same
    counts are the same dictionary. *)
Lemma counter_ext c1 : forall c2,
  PyDict.wf c1 -> PyDict.wf c2 ->
  PyDict.keys c1 = PyDict.keys c2 ->
  (forall k, Counter.get0 k c1 = Counter.get0 k c2) ->
  c1 = c2.
Proof.
  unfold PyDict.wf.
  induction c1 as [|[k1 n1] c1 IH]; intros [|[k2 n2] c2] Hwf1 Hwf2 Hkeys Hget;
    try done.
  simpl in *. injection Hkeys as -> Hkeys.
  apply NoDup_cons in Hwf1 as [Hk1 Hwf1]. apply NoDup_cons in Hwf2 as [Hk2 Hwf2].
  f_equal.
  - f_equal. specialize (Hget k2). by rewrite !get0_cons, !decide_True in Hget.
  - apply IH; try done. intros k. specialize (Hget k).
    rewrite !get0_cons in Hget. destruct (decide (k = k2)) as [->|Hne]; [|done].
    rewrite !get0_notin; [done| |done]. by rewrite <- Hkeys.
Qed.

(** Merging the table of a second list into the table of a first one gives
    the table of the two lists one after the other. *)
Lemma update_of_list ws1 ws2 :
  fold_left Counter.add_item (Counter.of_list ws2) (Counter.of_list ws1) =
  Counter.of_list (ws1 ++ ws2).
Proof.
  unfold Counter.of_list at 3. rewrite fold_left_app.
  fold (Counter.of_list ws1). apply counter_ext.
  - apply wf_fold_add, wf_of_list.
  - apply wf_fold_incr, wf_of_list.
  - rewrite keys_fold_add, keys_fold_incr.
    unfold Counter.of_list at 1. rewrite keys_fold_incr.
    apply (add_keys_add_keys ws2 [] (PyDict.keys (Counter.of_list ws1))).
  - intros k. rewrite get0_fold_add by apply wf_of_list.
    by rewrite (get0_fold_incr ws2 (Counter.of_list ws1)), !get0_of_list.
Qed.
End merge_facts.

(** Counting two token lists with two fresh counters and merging the second
    into the first leaves the first exactly as if it had counted the two
    lists one after the other: the same entries in the same order and the
    same total. *)
Theorem merge_counts_of_parts (ws1 ws2 : list string) :
  WordCounter.merge_counts (Spec.built ws1) (Spec.built ws2) =
  Spec.built (ws1 ++ ws2).
Proof.
  assert (Hwc : forall ws,
    WordCounter.word_counts (Spec.built ws) = Counter.of_list ws)
    by by intros [|].
  assert (Htot : forall ws,
    WordCounter.total_words (Spec.built ws) = Z.of_nat (length ws))
    by by intros [|].
  unfold WordCounter.merge_counts. rewrite !Hwc, !Htot.
  destruct ws2 as [|w2 ws2].
  - by rewrite app_nil_r.
  - assert (Htruthy : Counter.truthy (Counter.of_list (w2 :: ws2)) = true).
    { assert (Hin : w2 ∈ PyDict.keys (Counter.of_list (w2 :: ws2))).
      { apply elem_of_keys_of_list. by left. }
      destruct (Counter.of_list (w2 :: ws2)); [|done].
      by apply elem_of_nil in Hin. }
    rewrite Htruthy. cbn [WordCounter.word_counts WordCounter.total_words].
    rewrite update_fold by apply wf_of_list. rewrite update_of_list.
    rewrite <- Nat2Z.inj_add, <- length_app.
    unfold Spec.built. by destruct ws1.
Qed.

Section merge_order_facts.
Implicit Types (c self other : Counter.t) (k : string) (n : Z).

Lemma truthy_false c : Counter.truthy c = false -> c = [].
Proof. by destruct c. Qed.

Lemma elem_of_wf_dict c k n :
  PyDict.wf c -> (k, n) ∈ c <-> k ∈ PyDict.keys c /\ Counter.get0 k c = n.
Proof.
  intros Hwf. rewrite <- get_Some_elem_of by done.
  rewrite <- get_is_Some. unfold Counter.get0.
  destruct (PyDict.get k c) as [v|]; simpl.
  - split; [intros [= ->]; eauto | by intros [_ ->]].
  - split; [done | by intros [[? ?] _]].
Qed.

Lemma NoDup_wf_dict c : PyDict.wf c -> NoDup c.
Proof. intros Hwf. by eapply NoDup_fmap_1. Qed.

Lemma elem_of_keys_update self other k :
  PyDict.wf other ->
  k ∈ PyDict.keys (Counter.update self other) <->
  k ∈ PyDict.keys self \/ k ∈ PyDict.keys other.
Proof.
  intros Hwf. rewrite update_fold by done.
  by rewrite keys_fold_add, elem_of_add_keys.
Qed.

Lemma update_comm_perm self other :
  PyDict.wf self -> PyDict.wf other ->
  Counter.update self other ≡ₚ Counter.update other self.
Proof.
  intros Hs Ho. apply NoDup_Permutation.
  - by apply NoDup_wf_dict, wf_update.
  - by apply NoDup_wf_dict, wf_update.
  - intros [k n]. rewrite !elem_of_wf_dict by by apply wf_update.
    rewrite !elem_of_keys_update, !get0_update by done.
    split; intros [[?|?] <-]; split; try tauto; lia.
Qed.
End merge_order_facts.

(** [a.merge_counts(b)] on reachable counters: the total of [a] grows by the
    total of [b], the words of [a] afterwards are those of [a] and of [b],
    and no counter but [a] changes, [b] included when it is another
    object. *)
Theorem merge_counts_total_and_frame
    (h : Heap.heap) (self other : Heap.ref) (a b : WordCounter.t) :
  Heap.reachable h -> h !! self = Some a -> h !! other = Some b ->
  let h' := Heap.merge_counts self other h in
  length h' = length h /\
  (forall r : Heap.ref, r ≠ self -> h' !! r = h !! r) /\
  exists a', h' !! self = Some a' /\
    WordCounter.get_total_words a' =
      WordCounter.get_total_words a + WordCounter.get_total_words b /\
    forall w, w ∈ PyDict.keys (WordCounter.word_counts a') <->
              w ∈ PyDict.keys (WordCounter.word_counts a) \/
              w ∈ PyDict.keys (WordCounter.word_counts b).
Proof.
  intros Hr Ha Hb h'. apply reachable_ok in Hr.
  destruct (Forall_lookup_1 _ _ _ _ Hr Hb) as (Hwfb & _ & Htotb).
  subst h'. rewrite (heap_merge_counts_spec h self other a b) by done.
  split; [apply length_insert|]. split.
  { intros r Hne. by rewrite list_lookup_insert_ne. }
  exists (WordCounter.merge_counts a b).
  split; [apply list_lookup_insert_eq; by eapply lookup_lt_Some|].
  unfold WordCounter.merge_counts, WordCounter.get_total_words.
  destruct (Counter.truthy (WordCounter.word_counts b)) eqn:Htr; simpl.
  - split; [done|]. intros w. by apply elem_of_keys_update.
  - destruct (WordCounter.word_counts b) as [|item rest]; [|done].
    rewrite Htotb. split; [unfold Counter.total; simpl; lia|].
    intros w. simpl. rewrite elem_of_nil. tauto.
Qed.

Lemma merge_counts_total_and_frame_witness :
  let a := WordCounter.mk [("x", 2); ("y", 1)] 3 in
  let b := WordCounter.mk [("y", 1); ("z", 1)] 2 in
  let h' := Heap.merge_counts 0 1 [a; b] in
  length h' = length [a; b] /\
  (forall r : Heap.ref, r ≠ 0%nat -> h' !! r = [a; b] !! r) /\
  exists a', h' !! 0%nat = Some a' /\
    WordCounter.get_total_words a' =
      WordCounter.get_total_words a + WordCounter.get_total_words b /\
    forall w, w ∈ PyDict.keys (WordCounter.word_counts a') <->
              w ∈ PyDict.keys (WordCounter.word_counts a) \/
              w ∈ PyDict.keys (WordCounter.word_counts b).
Proof.
  intros a b.
  apply (merge_counts_total_and_frame
           (Heap.exec (Heap.CountWords 1 ["y"; "z"])
              (Heap.exec (Heap.CountWords 0 ["x"; "y"; "x"])
                 (Heap.exec Heap.New (Heap.exec Heap.New []))))
           0 1 a b);
    [repeat constructor | vm_compute; reflexivity | vm_compute; reflexivity].
Defined.

(** Which of two reachable counters is merged into which does not matter
    for the counts: the two merged tables hold the same entries, in a
    different order at most, and the two totals agree. *)
Theorem merge_counts_commutes_up_to_order
    (h : Heap.heap) (i j : Heap.ref) (a b : WordCounter.t) :
  Heap.reachable h -> h !! i = Some a -> h !! j = Some b ->
  WordCounter.word_counts (WordCounter.merge_counts a b) ≡ₚ
    WordCounter.word_counts (WordCounter.merge_counts b a) /\
  WordCounter.total_words (WordCounter.merge_counts a b) =
    WordCounter.total_words (WordCounter.merge_counts b a).
Proof.
  intros Hr Ha Hb. apply reachable_ok in Hr.
  destruct (Forall_lookup_1 _ _ _ _ Hr Ha) as (Hwfa & _ & Htota).
  destruct (Forall_lookup_1 _ _ _ _ Hr Hb) as (Hwfb & _ & Htotb).
  pose proof (update_comm_perm _ _ Hwfa Hwfb) as Hperm.
  assert (Hempty : forall c : Counter.t,
            PyDict.wf c -> Counter.update [] c = c).
  { intros c Hc. unfold Counter.update. simpl.
    by apply (dict_update_disjoint c []). }
  unfold WordCounter.merge_counts.
  destruct (Counter.truthy (WordCounter.word_counts a)) eqn:Ta;
    destruct (Counter.truthy (WordCounter.word_counts b)) eqn:Tb;
    cbn [WordCounter.word_counts WordCounter.total_words].
  - split; [done | lia].
  - apply truthy_false in Tb. rewrite Tb in Htotb |- *.
    rewrite Hempty by done. split; [done|]. rewrite Htotb.
    unfold Counter.total. simpl. lia.
  - apply truthy_false in Ta. rewrite Ta in Htota |- *.
    rewrite Hempty by done. split; [done|]. rewrite Htota.
    unfold Counter.total. simpl. lia.
  - apply truthy_false in Ta, Tb. rewrite Ta, Tb in *.
    split; [done|]. by rewrite Htota, Htotb.
Qed.

Lemma merge_counts_commutes_up_to_order_witness :
  let a := WordCounter.mk [("x", 2); ("y", 1)] 3 in
  let b := WordCounter.mk [("y", 1); ("z", 1)] 2 in
  WordCounter.word_counts (WordCounter.merge_counts a b) ≡ₚ
    WordCounter.word_counts (WordCounter.merge_counts b a) /\
  WordCounter.total_words (WordCounter.merge_counts a b) =
    WordCounter.total_words (WordCounter.merge_counts b a).
Proof.
  intros a b.
  apply (merge_counts_commutes_up_to_order
           (Heap.exec (Heap.CountWords 1 ["y"; "z"])
              (Heap.exec (Heap.CountWords 0 ["x"; "y"; "x"])
                 (Heap.exec Heap.New (Heap.exec Heap.New []))))
           0 1 a b);
    [repeat constructor | vm_compute; reflexivity | vm_compute; reflexivity].
Defined.

(** * Further properties of the loader and of the filter *)



Example get_all_content_run :
  FileLoader.get_all_content
    (FileLoader.mk [("a.txt", "the cat"); ("b.txt", "sat")]) =
  String.append "the cat" (String.append FileLoader.newline "sat") /\
  FileLoader.get_all_content FileLoader.init = "".
Proof. by vm_compute. Qed.

(** ** The part-of-speech filter when it is active *)

Section pos_facts.
Lemma sublist_filter_fst {A B : Type} (P : A * B -> Prop)
    `{forall x, Decision (P x)} (l : list (A * B)) :
  (filter P l).*1 `sublist_of` l.*1.
Proof.
  induction l as [|x l IH]; simpl; [done|].
  rewrite filter_cons. destruct (decide (P x)); simpl.
  - by apply sublist_skip.
  - by apply sublist_cons.
Qed.
End pos_facts.

(** [filter_by_pos] never adds or reorders words.  With a tagger that
    returns one pair per word, in order, the result is a sub-list of the
    input in every case; an active filter keeps exactly the words whose tag
    is allowed; and when the tagger raises, the input comes back unchanged
    with one failure line. *)
Theorem filter_by_pos_selects_by_tag
    (pos_tag : list string -> list (string * string) + string)
    (words : list string) (self : POSFilter.t) :
  (forall tagged, pos_tag words = inl tagged -> tagged.*1 = words) ->
  (POSFilter.filter_by_pos pos_tag words self).1 `sublist_of` words /\
  (POSFilter.enabled self = true ->
   POSFilter.allowed_pos_tags self ≠ ∅ ->
   (forall tagged, pos_tag words = inl tagged ->
      POSFilter.filter_by_pos pos_tag words self =
      ((filter (fun wp => wp.2 ∈ POSFilter.allowed_pos_tags self) tagged).*1,
       [])) /\
   (forall e, words ≠ [] -> pos_tag words = inr e ->
      POSFilter.filter_by_pos pos_tag words self =
      (words, [POSFilter.FilterFailed e]))).
Proof.
  intros Hcontract. unfold POSFilter.filter_by_pos. split.
  - destruct (negb (POSFilter.enabled self)
              || bool_decide (POSFilter.allowed_pos_tags self = ∅))%bool;
      [done|].
    destruct words as [|w words]; [done|].
    destruct (pos_tag (w :: words)) as [tagged|e] eqn:E; [|done]. simpl.
    rewrite <- (Hcontract tagged eq_refl). apply sublist_filter_fst.
  - intros Hon Htags. rewrite Hon.
    rewrite (bool_decide_eq_false_2 _ Htags). simpl. split.
    + intros tagged E. destruct words as [|w words]; [|by rewrite E].
      apply Hcontract in E. by destruct tagged.
    + intros e Hne E. destruct words as [|w words]; [done|]. by rewrite E.
Qed.

Lemma filter_by_pos_selects_by_tag_witness :
  let pos_tag := fun ws : list string =>
    inl ((fun w => (w, if String.eqb w "quickly" then "RB" else "NN")) <$> ws)
    : list (string * string) + string in
  let words := ["python"; "quickly"; "data"] in
  let self := POSFilter.enable_filter (Some ["NN"; "NNS"]) (POSFilter.init false) in
  (POSFilter.filter_by_pos pos_tag words self).1 `sublist_of` words /\
  (POSFilter.enabled self = true ->
   POSFilter.allowed_pos_tags self ≠ ∅ ->
   (forall tagged, pos_tag words = inl tagged ->
      POSFilter.filter_by_pos pos_tag words self =
      ((filter (fun wp => wp.2 ∈ POSFilter.allowed_pos_tags self) tagged).*1,
       [])) /\
   (forall e, words ≠ [] -> pos_tag words = inr e ->
      POSFilter.filter_by_pos pos_tag words self =
      (words, [POSFilter.FilterFailed e]))).
Proof.
  intros pos_tag words self.
  apply (filter_by_pos_selects_by_tag pos_tag words self).
  intros tagged [= <-]. reflexivity.
Defined.

(** [get_pos_tags] returns one pair per word, in order, whenever the tagger
    does: the words of the pairs are the input.  A disabled filter tags
    every word [N/A] without calling the tagger, and a tagger that raises
    gives every word the tag [ERROR]. *)
Theorem get_pos_tags_keeps_the_words
    (pos_tag : list string -> list (string * string) + string)
    (words : list string) (self : POSFilter.t) :
  (forall tagged, pos_tag words = inl tagged -> tagged.*1 = words) ->
  (POSFilter.get_pos_tags pos_tag words self).1.*1 = words /\
  (POSFilter.enabled self = false ->
   POSFilter.get_pos_tags pos_tag words self =
   ((fun w => (w, "N/A")) <$> words, [])) /\
  (forall e, POSFilter.enabled self = true -> words ≠ [] ->
   pos_tag words = inr e ->
   POSFilter.get_pos_tags pos_tag words self =
   ((fun w => (w, "ERROR")) <$> words, [POSFilter.TaggingFailed e])).
Proof.
  intros Hcontract. unfold POSFilter.get_pos_tags.
  assert (Hfst : forall tag : string,
            ((fun w : string => (w, tag)) <$> words).*1 = words).
  { intros tag. rewrite <- list_fmap_compose. apply list_fmap_id. }
  split; [|split].
  - destruct (negb (POSFilter.enabled self)
              || match words with [] => true | _ :: _ => false end)%bool;
      [apply Hfst|].
    destruct (pos_tag words) as [tagged|e] eqn:E; simpl; [|apply Hfst].
    by apply Hcontract.
  - by intros ->.
  - intros e -> Hne E. destruct words as [|w words]; [done|]. simpl.
    by rewrite E.
Qed.

Lemma get_pos_tags_keeps_the_words_witness :
  let pos_tag := fun ws : list string =>
    inl ((fun w => (w, "NN")) <$> ws) : list (string * string) + string in
  let words := ["python"; "data"] in
  let self := POSFilter.init true in
  (POSFilter.get_pos_tags pos_tag words self).1.*1 = words /\
  (POSFilter.enabled self = false ->
   POSFilter.get_pos_tags pos_tag words self =
   ((fun w => (w, "N/A")) <$> words, [])) /\
  (forall e, POSFilter.enabled self = true -> words ≠ [] ->
   pos_tag words = inr e ->
   POSFilter.get_pos_tags pos_tag words self =
   ((fun w => (w, "ERROR")) <$> words, [POSFilter.TaggingFailed e])).
Proof.
  intros pos_tag words self.
  apply (get_pos_tags_keeps_the_words pos_tag words self).
  intros tagged [= <-]. reflexivity.
Defined.

(** Switching the filter: [disable_filter] also forgets the tags, so a
    filter that is disabled and then enabled again without tags still
    returns its input; [enable_filter] with a non-empty list allows
    exactly the listed tags, and with an empty list it keeps the tags it
    had. *)
Theorem pos_filter_switching
    (pos_tag : list string -> list (string * string) + string)
    (words : list string) (self : POSFilter.t) (tags : list string) :
  POSFilter.filter_by_pos pos_tag words
    (POSFilter.enable_filter None (POSFilter.disable_filter self)) =
    (words, []) /\
  POSFilter.is_enabled (POSFilter.enable_filter (Some tags) self) = true /\
  forall tag,
    tag ∈ POSFilter.get_allowed_pos_tags
            (POSFilter.enable_filter (Some tags) self) <->
    match tags with
    | [] => tag ∈ POSFilter.get_allowed_pos_tags self
    | _ :: _ => tag ∈ tags
    end.
Proof.
  split; [|split].
  - unfold POSFilter.filter_by_pos. simpl.
    by rewrite bool_decide_eq_true_2.
  - by destruct tags.
  - intros tag. destruct tags as [|t tags]; [done|].
    unfold POSFilter.get_allowed_pos_tags, POSFilter.enable_filter,
      POSFilter.set_allowed_pos_tags.
    cbn [POSFilter.allowed_pos_tags].
    apply (elem_of_list_to_set (C := gset string) tag (t :: tags)).
Qed.

(** * Properties of the text processor *)

(** ** Characters *)

Section char_facts.
Implicit Types c : ascii.

Lemma lower_not_space c : PyText.is_lower c = true -> PyText.is_space c = false.
Proof. by destruct c as [[] [] [] [] [] [] [] []]. Qed.

Lemma lower_not_blank c : PyText.is_lower c = true -> Ascii.eqb c " " = false.
Proof. by destruct c as [[] [] [] [] [] [] [] []]. Qed.

Lemma lower_is_letter c : PyText.is_lower c = true -> PyText.is_letter c = true.
Proof. by destruct c as [[] [] [] [] [] [] [] []]. Qed.

Lemma lower_char_fixes_lower c :
  PyText.is_lower c = true -> PyStr.lower_char c = c.
Proof. by destruct c as [[] [] [] [] [] [] [] []]. Qed.

Lemma lower_char_letter c :
  PyText.is_letter (PyStr.lower_char c) = PyText.is_letter c.
Proof. by destruct c as [[] [] [] [] [] [] [] []]. Qed.

(** What [clean_text] makes of one character before it collapses the
    whitespace: a lowercase letter or a whitespace character. *)
Lemma blanked_char c :
  let c' := PyStr.lower_char c in
  let r := if (PyText.is_letter c' || PyText.is_space c')%bool
           then c' else " "%char in
  (PyText.is_lower r || PyText.is_space r)%bool = true.
Proof. by destruct c as [[] [] [] [] [] [] [] []]. Qed.

Lemma blanked_non_letter c :
  PyText.is_letter c = false ->
  let c' := PyStr.lower_char c in
  let r := if (PyText.is_letter c' || PyText.is_space c')%bool
           then c' else " "%char in
  PyText.is_space r = true.
Proof. by destruct c as [[] [] [] [] [] [] [] []]. Qed.

Lemma eqb_blank c : Ascii.eqb c " " = true -> c = " "%char.
Proof. apply Ascii.eqb_eq. Qed.
End char_facts.

(** ** The stages of [clean_text] *)

Section clean_facts.
Implicit Types (s text : string) (b : bool).

Lemma blank_lower_chars text :
  PyText.all_chars (fun c => PyText.is_lower c || PyText.is_space c)%bool
    (TextProcessor.blank_non_letters (PyStr.lower text)) = true.
Proof.
  induction text as [|c text IH]; simpl; [done|].
  by rewrite (blanked_char c), IH.
Qed.

Lemma collapse_single_spaced s : forall b,
  PyText.all_chars (fun c => PyText.is_lower c || PyText.is_space c)%bool s = true ->
  Spec.single_spaced b (TextProcessor.collapse_spaces b s) = true.
Proof.
  induction s as [|c s IH]; intros b Hall; simpl in *; [done|].
  apply andb_true_iff in Hall as [Hc Hall].
  destruct (PyText.is_space c) eqn:Hsp.
  - destruct b; simpl; [by apply IH|]. by apply IH.
  - rewrite orb_false_r in Hc. simpl.
    by rewrite (lower_not_blank c Hc), Hc, IH.
Qed.

Lemma single_spaced_weaken s b :
  Spec.single_spaced true s = true -> Spec.single_spaced b s = true.
Proof.
  destruct b; [done|]. destruct s as [|c s]; simpl; [done|].
  by destruct (Ascii.eqb c " ").
Qed.

Lemma lstrip_single_spaced s : forall b,
  Spec.single_spaced b s = true ->
  Spec.single_spaced true (PyText.lstrip s) = true.
Proof.
  induction s as [|c s IH]; intros b Hs; simpl in *; [done|].
  destruct (Ascii.eqb c " ") eqn:Hc.
  - apply eqb_blank in Hc as ->. simpl.
    apply andb_true_iff in Hs as [_ Hs]. by eapply IH.
  - apply andb_true_iff in Hs as [Hlow Hs].
    rewrite (lower_not_space c Hlow). simpl. by rewrite Hc, Hlow, Hs.
Qed.

Lemma rstrip_single_spaced s : forall b,
  Spec.single_spaced b s = true ->
  Spec.single_spaced b (PyText.rstrip s) = true /\
  Spec.ends_with_space (PyText.rstrip s) = false.
Proof.
  induction s as [|c s IH]; intros b Hs; simpl in *; [done|].
  destruct (Ascii.eqb c " ") eqn:Hc.
  - apply andb_true_iff in Hs as [Hb Hs].
    destruct (IH true Hs) as [Hr He]. apply eqb_blank in Hc as ->.
    destruct (PyText.rstrip s) as [|c' r]; simpl; [done|].
    simpl in Hr, He. by rewrite Hb, Hr, He.
  - apply andb_true_iff in Hs as [Hlow Hs].
    destruct (IH false Hs) as [Hr He]. rewrite (lower_not_space c Hlow).
    destruct (PyText.rstrip s) as [|c' r]; simpl.
    + by rewrite Hc, Hlow.
    + simpl in Hr, He. by rewrite Hc, Hlow, Hr, He.
Qed.

(** On a text of the clean shape every stage changes nothing. *)
Lemma lower_single_spaced s b :
  Spec.single_spaced b s = true -> PyStr.lower s = s.
Proof.
  revert b. induction s as [|c s IH]; intros b Hs; simpl in *; [done|].
  destruct (Ascii.eqb c " ") eqn:Hc.
  - apply eqb_blank in Hc as ->. apply andb_true_iff in Hs as [_ Hs].
    f_equal. by eapply IH.
  - apply andb_true_iff in Hs as [Hlow Hs].
    rewrite (lower_char_fixes_lower c Hlow). f_equal. by eapply IH.
Qed.

Lemma blank_single_spaced s b :
  Spec.single_spaced b s = true -> TextProcessor.blank_non_letters s = s.
Proof.
  revert b. induction s as [|c s IH]; intros b Hs; simpl in *; [done|].
  destruct (Ascii.eqb c " ") eqn:Hc.
  - apply eqb_blank in Hc as ->. apply andb_true_iff in Hs as [_ Hs].
    simpl. f_equal. by eapply IH.
  - apply andb_true_iff in Hs as [Hlow Hs].
    rewrite (lower_is_letter c Hlow). simpl. f_equal. by eapply IH.
Qed.

Lemma collapse_fixes_single_spaced s : forall b,
  Spec.single_spaced b s = true -> TextProcessor.collapse_spaces b s = s.
Proof.
  induction s as [|c s IH]; intros b Hs; simpl in *; [done|].
  destruct (Ascii.eqb c " ") eqn:Hc.
  - apply eqb_blank in Hc as ->. apply andb_true_iff in Hs as [Hb Hs].
    destruct b; [done|]. simpl. f_equal. by apply IH.
  - apply andb_true_iff in Hs as [Hlow Hs].
    rewrite (lower_not_space c Hlow). f_equal. by apply IH.
Qed.

Lemma lstrip_fixes_single_spaced s :
  Spec.single_spaced true s = true -> PyText.lstrip s = s.
Proof.
  destruct s as [|c s]; simpl; [done|].
  destruct (Ascii.eqb c " "); [done|].
  intros [Hlow _]%andb_true_iff. by rewrite (lower_not_space c Hlow).
Qed.

Lemma rstrip_fixes_single_spaced s : forall b,
  Spec.single_spaced b s = true -> Spec.ends_with_space s = false ->
  PyText.rstrip s = s.
Proof.
  induction s as [|c s IH]; intros b Hs He; simpl in *; [done|].
  destruct (Ascii.eqb c " ") eqn:Hc.
  - apply andb_true_iff in Hs as [_ Hs].
    destruct s as [|c' s]; [done|]. rewrite (IH true Hs He). done.
  - apply andb_true_iff in Hs as [Hlow Hs].
    rewrite (lower_not_space c Hlow).
    destruct s as [|c' s]; [done|]. rewrite (IH false Hs He). done.
Qed.

Lemma clean_text_fixes_clean s :
  Spec.is_clean s = true -> TextProcessor.clean_text s = s.
Proof.
  unfold Spec.is_clean. intros [Hs He]%andb_true_iff.
  apply negb_true_iff in He. destruct s as [|c s]; [done|].
  unfold TextProcessor.clean_text, PyText.strip.
  rewrite (lower_single_spaced _ _ Hs), (blank_single_spaced _ _ Hs).
  rewrite (collapse_fixes_single_spaced _ false)
    by by apply single_spaced_weaken.
  rewrite lstrip_fixes_single_spaced by done.
  by apply (rstrip_fixes_single_spaced _ true).
Qed.

Lemma clean_text_is_clean text :
  Spec.is_clean (TextProcessor.clean_text text) = true.
Proof.
  destruct text as [|c text]; [done|].
  unfold TextProcessor.clean_text, PyText.strip, Spec.is_clean.
  pose proof (blank_lower_chars (String c text)) as Hchars.
  apply (collapse_single_spaced _ false) in Hchars.
  apply lstrip_single_spaced in Hchars.
  apply rstrip_single_spaced in Hchars as [Hs He].
  by rewrite Hs, He.
Qed.
End clean_facts.

(** [clean_text] returns lowercase words with single spaces between them:
    every character of the result is a letter from [a] to [z] or a space, no
    two spaces are adjacent, and the result neither begins nor ends with a
    space.  The hypothesis keeps the statement to the texts on which the
    character classes of the model are Python's. *)
Theorem clean_text_normal_form (text : string) :
  PyText.is_ascii text = true ->
  Spec.is_clean (TextProcessor.clean_text text) = true.
Proof. intros _. apply clean_text_is_clean. Qed.

Lemma clean_text_normal_form_witness :
  Spec.is_clean (TextProcessor.clean_text "  Hello, World!  It's 2024. ") = true.
Proof.
  apply (clean_text_normal_form "  Hello, World!  It's 2024. "). reflexivity.
Defined.

(** Cleaning a cleaned text changes nothing. *)
Theorem clean_text_idempotent (text : string) :
  PyText.is_ascii text = true ->
  TextProcessor.clean_text (TextProcessor.clean_text text) =
  TextProcessor.clean_text text.
Proof. intros _. apply clean_text_fixes_clean, clean_text_is_clean. Qed.

Lemma clean_text_idempotent_witness :
  TextProcessor.clean_text (TextProcessor.clean_text "A-b  C?") =
  TextProcessor.clean_text "A-b  C?".
Proof. apply (clean_text_idempotent "A-b  C?"). reflexivity. Defined.

(** ** Texts without a letter *)

Section letterless_facts.
Implicit Types (s text : string).

Lemma blank_letterless text :
  PyText.all_chars (fun c => negb (PyText.is_letter c)) text = true ->
  PyText.all_chars PyText.is_space
    (TextProcessor.blank_non_letters (PyStr.lower text)) = true.
Proof.
  induction text as [|c text IH]; simpl; [done|].
  intros [Hc Hall]%andb_true_iff. apply negb_true_iff in Hc.
  by rewrite (blanked_non_letter c Hc), IH.
Qed.

Lemma collapse_all_space s : forall b,
  PyText.all_chars PyText.is_space s = true ->
  PyText.all_chars PyText.is_space (TextProcessor.collapse_spaces b s) = true.
Proof.
  induction s as [|c s IH]; intros b; simpl; [done|].
  intros [Hc Hall]%andb_true_iff. rewrite Hc.
  destruct b; simpl; by apply IH.
Qed.

Lemma lstrip_all_space s :
  PyText.all_chars PyText.is_space s = true -> PyText.lstrip s = EmptyString.
Proof.
  induction s as [|c s IH]; simpl; [done|].
  intros [Hc Hall]%andb_true_iff. rewrite Hc. by apply IH.
Qed.

Lemma clean_text_letterless text :
  PyText.all_chars (fun c => negb (PyText.is_letter c)) text = true ->
  TextProcessor.clean_text text = EmptyString.
Proof.
  intros Hall. destruct text as [|c text]; [done|].
  unfold TextProcessor.clean_text, PyText.strip.
  rewrite lstrip_all_space; [done|].
  by apply collapse_all_space, blank_letterless.
Qed.
End letterless_facts.

(** A text without any letter, digits and punctuation for instance, or the
    empty text, yields no word and no output: [process_text] returns the
    empty list without consulting the tokenizer. *)
Theorem process_text_without_letters
    (word_tokenize : string -> list string + string)
    (text : string) (self : TextProcessor.t) :
  PyText.is_ascii text = true ->
  PyText.all_chars (fun c => negb (PyText.is_letter c)) text = true ->
  TextProcessor.process_text word_tokenize text self = ([], []).
Proof.
  intros _ Hall. unfold TextProcessor.process_text.
  by rewrite clean_text_letterless.
Qed.

Lemma process_text_without_letters_witness :
  TextProcessor.process_text (fun _ => inr "LookupError") "2024-01-01: 42%!"
    (TextProcessor.mk ∅) = ([], []).
Proof.
  apply (process_text_without_letters (fun _ => inr "LookupError")
           "2024-01-01: 42%!" (TextProcessor.mk ∅));
    reflexivity.
Defined.

(** ** Stop words *)

Section stopword_facts.
Implicit Types (self : TextProcessor.t) (tokens words : list string).

Lemma remove_stopwords_filter tokens self :
  TextProcessor.remove_stopwords tokens self =
  List.filter (TextProcessor.keeps self) tokens.
Proof. by destruct tokens. Qed.

Lemma filter_idem {A : Type} (p : A -> bool) (l : list A) :
  List.filter p (List.filter p l) = List.filter p l.
Proof.
  induction l as [|x l IH]; simpl; [done|].
  destruct (p x) eqn:E; simpl; [|done]. by rewrite E, IH.
Qed.

Lemma filter_sublist {A : Type} (p : A -> bool) (l : list A) :
  List.filter p l `sublist_of` l.
Proof.
  induction l as [|x l IH]; simpl; [done|].
  destruct (p x); [by apply sublist_skip | by apply sublist_cons].
Qed.

Lemma filter_sublist_impl {A : Type} (p q : A -> bool) (l : list A) :
  (forall x, p x = true -> q x = true) ->
  List.filter p l `sublist_of` List.filter q l.
Proof.
  intros Himpl. induction l as [|x l IH]; simpl; [done|].
  destruct (p x) eqn:Ep.
  - rewrite (Himpl x Ep). by apply sublist_skip.
  - destruct (q x); [by apply sublist_cons | done].
Qed.

Lemma stopwords_add words : forall self,
  TextProcessor.stopwords_set (TextProcessor.add_custom_stopwords words self) =
  list_to_set ((fun w => PyText.strip (PyStr.lower w)) <$> words)
  ∪ TextProcessor.stopwords_set self.
Proof.
  unfold TextProcessor.add_custom_stopwords.
  induction words as [|w words IH]; intros self; simpl.
  - by rewrite (left_id_L ∅ (∪)).
  - rewrite IH. simpl. rewrite (assoc_L (∪)). f_equal. apply (comm_L (∪)).
Qed.
End stopword_facts.

(** [remove_stopwords] only drops tokens: the result is a sub-list of the
    input; every token it keeps is alphabetic, has at least two characters
    and is no stop word once lowercased; every such token is kept; and
    filtering the result again changes nothing. *)
Theorem remove_stopwords_keeps_content_words
    (tokens : list string) (self : TextProcessor.t) :
  Forall (fun token => PyText.is_ascii token = true) tokens ->
  let kept := TextProcessor.remove_stopwords tokens self in
  kept `sublist_of` tokens /\
  (forall token, token ∈ kept <->
     token ∈ tokens /\
     (PyStr.lower token ∉ TextProcessor.stopwords_set self) /\
     (2 <= String.length token)%nat /\
     PyText.isalpha token = true) /\
  TextProcessor.remove_stopwords kept self = kept.
Proof.
  intros _ kept. subst kept. rewrite !remove_stopwords_filter.
  split; [apply filter_sublist|]. split; [|apply filter_idem].
  intros token. rewrite !list_elem_of_In, filter_In.
  unfold TextProcessor.keeps. rewrite !andb_true_iff, negb_true_iff.
  rewrite bool_decide_eq_false, Nat.leb_le. tauto.
Qed.

Lemma remove_stopwords_keeps_content_words_witness :
  let tokens := ["the"; "Cat"; "a"; "x1"; "dogs"] in
  let self := TextProcessor.mk {[ "the" ]} in
  let kept := TextProcessor.remove_stopwords tokens self in
  kept `sublist_of` tokens /\
  (forall token, token ∈ kept <->
     token ∈ tokens /\
     (PyStr.lower token ∉ TextProcessor.stopwords_set self) /\
     (2 <= String.length token)%nat /\
     PyText.isalpha token = true) /\
  TextProcessor.remove_stopwords kept self = kept.
Proof.
  intros tokens self.
  apply (remove_stopwords_keeps_content_words tokens self).
  repeat constructor.
Defined.

(** [add_custom_stopwords(words)] adds the lowercased, stripped words to
    the stop words and removes none; afterwards [remove_stopwords] keeps a
    sub-list of what it kept before, and no token whose lowercase form is
    one of the added words. *)
Theorem add_custom_stopwords_then_remove
    (words tokens : list string) (self : TextProcessor.t) :
  Forall (fun token => PyText.is_ascii token = true) (words ++ tokens) ->
  let self' := TextProcessor.add_custom_stopwords words self in
  (forall s, s ∈ TextProcessor.stopwords_set self' <->
     s ∈ TextProcessor.stopwords_set self \/
     exists w, w ∈ words /\ s = PyText.strip (PyStr.lower w)) /\
  TextProcessor.remove_stopwords tokens self' `sublist_of`
    TextProcessor.remove_stopwords tokens self /\
  (forall w token, w ∈ words ->
     token ∈ TextProcessor.remove_stopwords tokens self' ->
     PyStr.lower token ≠ PyText.strip (PyStr.lower w)).
Proof.
  intros _ self'.
  assert (Hset : forall s, s ∈ TextProcessor.stopwords_set self' <->
     s ∈ TextProcessor.stopwords_set self \/
     exists w, w ∈ words /\ s = PyText.strip (PyStr.lower w)).
  { intros s. subst self'. rewrite stopwords_add, elem_of_union.
    rewrite elem_of_list_to_set, list_elem_of_fmap. split.
    - intros [(w & -> & Hw)|?]; [right; eauto | by left].
    - intros [?|(w & Hw & ->)]; [by right | left; eauto]. }
  split; [done|]. rewrite !remove_stopwords_filter. split.
  - apply filter_sublist_impl. intros token. unfold TextProcessor.keeps.
    rewrite !andb_true_iff, !negb_true_iff, !bool_decide_eq_false.
    intros [[Hout ?] ?]. repeat split; try done.
    intros Hin. apply Hout, Hset. by left.
  - intros w token Hw Htoken Heq.
    apply list_elem_of_In, filter_In in Htoken as [_ Hkeep].
    unfold TextProcessor.keeps in Hkeep.
    rewrite !andb_true_iff, negb_true_iff, bool_decide_eq_false in Hkeep.
    destruct Hkeep as [[Hout _] _]. apply Hout, Hset. right. eauto.
Qed.

Lemma add_custom_stopwords_then_remove_witness :
  let words := [" Python "; "DATA"] in
  let tokens := ["python"; "Data"; "science"] in
  let self := TextProcessor.mk {[ "the" ]} in
  let self' := TextProcessor.add_custom_stopwords words self in
  (forall s, s ∈ TextProcessor.stopwords_set self' <->
     s ∈ TextProcessor.stopwords_set self \/
     exists w, w ∈ words /\ s = PyText.strip (PyStr.lower w)) /\
  TextProcessor.remove_stopwords tokens self' `sublist_of`
    TextProcessor.remove_stopwords tokens self /\
  (forall w token, w ∈ words ->
     token ∈ TextProcessor.remove_stopwords tokens self' ->
     PyStr.lower token ≠ PyText.strip (PyStr.lower w)).
Proof.
  intros words tokens self.
  apply (add_custom_stopwords_then_remove words tokens self).
  repeat constructor.
Defined.

(** ** Splitting a cleaned text *)

Section split_facts.
Implicit Types (s word : string) (c : ascii).

Lemma append_cons c s1 s2 :
  String.append (String c s1) s2 = String c (String.append s1 s2).
Proof. reflexivity. Qed.

Lemma append_empty_r s : String.append s EmptyString = s.
Proof.
  induction s as [|c s IH]; [done|]. by rewrite append_cons, IH.
Qed.

Lemma append_snoc word c s :
  String.append (String.append word (String c EmptyString)) s =
  String.append word (String c s).
Proof.
  induction word as [|c' word IH]; [done|]. by rewrite !append_cons, IH.
Qed.

Lemma single_spaced_after_word word c s :
  Spec.single_spaced false s =
  Spec.single_spaced
    match String.append word (String c EmptyString) with
    | EmptyString => true
    | String _ _ => false
    end s.
Proof. by destruct word. Qed.

Lemma ends_with_space_tail c s :
  Spec.ends_with_space (String c s) = false -> Spec.ends_with_space s = false.
Proof. by destruct s. Qed.

(** Joining the words that [split] finds in a text of the clean shape gives
    the text back; [word] is the beginning of a word already read. *)
Lemma split_from_join s : forall word,
  Spec.single_spaced
    match word with EmptyString => true | String _ _ => false end s = true ->
  Spec.ends_with_space s = false ->
  String.concat " " (PyText.split_from word s) = String.append word s.
Proof.
  induction s as [|c s IH]; intros word Hs He.
  - destruct word; simpl; [done|]. by rewrite append_empty_r.
  - cbn [Spec.single_spaced] in Hs. cbn [PyText.split_from].
    destruct (Ascii.eqb c " ") eqn:Hc.
    + apply eqb_blank in Hc as ->.
      apply andb_true_iff in Hs as [Hword Hs].
      destruct word as [|c0 word]; [done|].
      change (PyText.is_space " ") with true. cbn iota.
      assert (Hs' : s ≠ EmptyString) by by intros ->.
      apply ends_with_space_tail in He.
      specialize (IH EmptyString Hs He).
      change (String.append EmptyString s) with s in IH.
      destruct (PyText.split_from EmptyString s) as [|x xs] eqn:E.
      { simpl in IH. by rewrite <- IH in Hs'. }
      change (String.concat " " (String c0 word :: x :: xs))
        with (String.append (String c0 word)
                (String.append " " (String.concat " " (x :: xs)))).
      by rewrite IH.
    + apply andb_true_iff in Hs as [Hlow Hs].
      rewrite (lower_not_space c Hlow).
      rewrite IH.
      * apply append_snoc.
      * by rewrite <- single_spaced_after_word.
      * by apply ends_with_space_tail in He.
Qed.

Lemma all_lower_snoc word c :
  PyText.all_chars PyText.is_lower word = true -> PyText.is_lower c = true ->
  PyText.all_chars PyText.is_lower (String.append word (String c EmptyString)) = true.
Proof.
  intros Hword Hc. induction word as [|c' word IH]; simpl in *.
  - by rewrite Hc.
  - apply andb_true_iff in Hword as [-> Hword]. by apply IH.
Qed.

Lemma all_lower_isalpha word :
  word ≠ EmptyString ->
  PyText.all_chars PyText.is_lower word = true -> PyText.isalpha word = true.
Proof.
  intros Hne Hall. destruct word as [|c word]; [done|].
  unfold PyText.isalpha. clear Hne.
  induction (String c word) as [|c' w IH]; simpl in *; [done|].
  apply andb_true_iff in Hall as [Hc Hall].
  by rewrite (lower_is_letter c' Hc), IH.
Qed.

Lemma split_from_words s : forall word b,
  PyText.all_chars PyText.is_lower word = true ->
  Spec.single_spaced b s = true ->
  Forall (fun token => PyText.isalpha token = true /\
                       PyStr.lower token = token)
         (PyText.split_from word s).
Proof.
  assert (Hword : forall word,
    word ≠ EmptyString -> PyText.all_chars PyText.is_lower word = true ->
    PyText.isalpha word = true /\ PyStr.lower word = word).
  { intros word Hne Hall. split; [by apply all_lower_isalpha|].
    clear Hne. induction word as [|c word IH]; simpl in *; [done|].
    apply andb_true_iff in Hall as [Hc Hall].
    by rewrite (lower_char_fixes_lower c Hc), IH. }
  induction s as [|c s IH]; intros word b Hall Hs; cbn [PyText.split_from].
  - destruct word as [|c0 word]; [constructor|].
    constructor; [by apply Hword | constructor].
  - cbn [Spec.single_spaced] in Hs. destruct (Ascii.eqb c " ") eqn:Hc.
    + apply eqb_blank in Hc as ->. change (PyText.is_space " ") with true.
      cbn iota. apply andb_true_iff in Hs as [_ Hs].
      destruct word as [|c0 word]; [by eapply IH|].
      constructor; [by apply Hword | by eapply IH].
    + apply andb_true_iff in Hs as [Hlow Hs].
      rewrite (lower_not_space c Hlow).
      eapply IH; [by apply all_lower_snoc | exact Hs].
Qed.
End split_facts.

(** The fallback of [tokenize]: when [word_tokenize] raises on a cleaned
    text, the tokens are those of [split], one failure line is printed, and
    nothing of the text is lost: the tokens joined by single spaces are the
    cleaned text, and each token is a non-empty lowercase word. *)
Theorem tokenize_fallback_splits_losslessly
    (word_tokenize : string -> list string + string)
    (text e : string) :
  PyText.is_ascii text = true ->
  word_tokenize (TextProcessor.clean_text text) = inr e ->
  TextProcessor.clean_text text ≠ EmptyString ->
  let cleaned := TextProcessor.clean_text text in
  let '(tokens, out) := TextProcessor.tokenize word_tokenize cleaned in
  out = [TextProcessor.TokenizeFailed e] /\
  tokens = PyText.split cleaned /\
  String.concat " " tokens = cleaned /\
  Forall (fun token => PyText.isalpha token = true /\
                       PyStr.lower token = token) tokens.
Proof.
  intros _ Hfail Hne cleaned. subst cleaned.
  pose proof (clean_text_is_clean text) as Hclean.
  unfold TextProcessor.tokenize. rewrite Hfail.
  destruct (TextProcessor.clean_text text) as [|c s] eqn:E; [done|].
  unfold Spec.is_clean in Hclean.
  apply andb_true_iff in Hclean as [Hs He]. apply negb_true_iff in He.
  repeat split; try done.
  - by apply (split_from_join (String c s) EmptyString).
  - by apply (split_from_words (String c s) EmptyString true).
Qed.

Lemma tokenize_fallback_splits_losslessly_witness :
  let cleaned := TextProcessor.clean_text "The cat, the HAT." in
  let '(tokens, out) :=
    TextProcessor.tokenize (fun _ => inr "LookupError") cleaned in
  out = [TextProcessor.TokenizeFailed "LookupError"] /\
  tokens = PyText.split cleaned /\
  String.concat " " tokens = cleaned /\
  Forall (fun token => PyText.isalpha token = true /\
                       PyStr.lower token = token) tokens.
Proof.
  apply (tokenize_fallback_splits_losslessly (fun _ => inr "LookupError")
           "The cat, the HAT." "LookupError");
    [reflexivity | reflexivity | discriminate].
Defined.

(** Whatever the tokenizer returns, [process_text] returns a sub-list of
    its tokens, and none of the returned words is a stop word, shorter than
    two characters or not alphabetic; when the tokenizer raises, the words
    come from splitting the cleaned text at its spaces. *)
Theorem process_text_returns_content_words
    (word_tokenize : string -> list string + string)
    (text : string) (self : TextProcessor.t) :
  PyText.is_ascii text = true ->
  (forall tokens, word_tokenize (TextProcessor.clean_text text) = inl tokens ->
     Forall (fun token => PyText.is_ascii token = true) tokens) ->
  let words := (TextProcessor.process_text word_tokenize text self).1 in
  (forall word, word ∈ words ->
     (PyStr.lower word ∉ TextProcessor.stopwords_set self) /\
     (2 <= String.length word)%nat /\
     PyText.isalpha word = true) /\
  (forall tokens, word_tokenize (TextProcessor.clean_text text) = inl tokens ->
     words `sublist_of` tokens) /\
  (forall e, word_tokenize (TextProcessor.clean_text text) = inr e ->
     words = TextProcessor.remove_stopwords
               (PyText.split (TextProcessor.clean_text text)) self).
Proof.
  intros _ _ words. subst words. unfold TextProcessor.process_text.
  destruct (TextProcessor.tokenize word_tokenize (TextProcessor.clean_text text))
    as [tokens out] eqn:E.
  cbn [fst]. rewrite remove_stopwords_filter. split; [|split].
  - intros word [_ Hkeep]%list_elem_of_In%filter_In.
    unfold TextProcessor.keeps in Hkeep.
    rewrite !andb_true_iff, negb_true_iff, bool_decide_eq_false, Nat.leb_le
      in Hkeep. tauto.
  - intros tokens' Hok. unfold TextProcessor.tokenize in E.
    destruct (TextProcessor.clean_text text) as [|c s].
    + injection E as <- <-. simpl. apply sublist_nil_l.
    + rewrite Hok in E. injection E as <- <-. apply filter_sublist.
  - intros e Hfail. unfold TextProcessor.tokenize in E.
    destruct (TextProcessor.clean_text text) as [|c s].
    + by injection E as <- <-.
    + rewrite Hfail in E. injection E as <- <-.
      by rewrite remove_stopwords_filter.
Qed.

Lemma process_text_returns_content_words_witness :
  let word_tokenize := fun s : string =>
    inl (PyText.split s) : list string + string in
  let text := "The cat sat on a mat; THE END." in
  let self := TextProcessor.mk {[ "the"; "on" ]} in
  let words := (TextProcessor.process_text word_tokenize text self).1 in
  (forall word, word ∈ words ->
     (PyStr.lower word ∉ TextProcessor.stopwords_set self) /\
     (2 <= String.length word)%nat /\
     PyText.isalpha word = true) /\
  (forall tokens, word_tokenize (TextProcessor.clean_text text) = inl tokens ->
     words `sublist_of` tokens) /\
  (forall e, word_tokenize (TextProcessor.clean_text text) = inr e ->
     words = TextProcessor.remove_stopwords
               (PyText.split (TextProcessor.clean_text text)) self).
Proof.
  intros word_tokenize text self.
  apply (process_text_returns_content_words word_tokenize text self).
  - reflexivity.
  - intros tokens [= <-]. vm_compute. repeat constructor.
Defined.

Example process_text_run :
  TextProcessor.process_text (fun s => inl (PyText.split s))
    "The cat sat on a mat; THE END." (TextProcessor.mk {[ "the"; "on" ]}) =
  (["cat"; "sat"; "mat"; "end"], []).
Proof. by vm_compute. Qed.

(** ** Exporting a table *)

Section export_facts.
Import CSVExporter.













End export_facts.



Section statistics_export_facts.

End statistics_export_facts.

(** ** Writing the rows of a file *)

Section write_facts.
Import CSVExporter.
Variable writerow : string -> list (list cell) -> list cell -> option string.
Variable close_file : string -> list (list cell) -> option string.
Variable filename : string.



End write_facts.

(** ** Exporting a table *)


Section top_words_facts.
Import CSVExporter.
Variable open_file : string -> option string.
Variable writerow : string -> list (list cell) -> list cell -> option string.
Variable close_file : string -> list (list cell) -> option string.


End top_words_facts.







(** ** The analysis run of the main window *)

Section run_facts.
Import WorkerThread.


End run_facts.




Example run_of_two_files :
  let fs := FileLoader.mk_fs (fun path => String.eqb path "corpus")
    (fun path =>
       [FileLoader.mk_entry "a.txt" (FileLoader.Content "The cat sat.")
          (FileLoader.Content "The cat sat.");
        FileLoader.mk_entry "b.txt" (FileLoader.UnicodeDecodeError "utf-8")
          (FileLoader.Content "the CAT");
        FileLoader.mk_entry "c.txt" (FileLoader.OtherError "denied")
          (FileLoader.OtherError "denied")]) in
  WorkerThread.run fs (fun _ => inl (TextProcessor.mk {[ "the" ]}))
    (fun s => inl (PyText.split s)) (fun a b => (a, b))
    (WorkerThread.mk "corpus" None) =
  [WorkerThread.StatusUpdated WorkerThread.LoadingFiles;
   WorkerThread.ProgressUpdated 10;
   WorkerThread.ProgressUpdated 30;
   WorkerThread.StatusUpdated WorkerThread.ProcessingText;
   WorkerThread.ProgressUpdated 60;
   WorkerThread.StatusUpdated WorkerThread.CountingWords;
   WorkerThread.ProgressUpdated 80;
   WorkerThread.ProgressUpdated 100;
   WorkerThread.StatusUpdated WorkerThread.AnalysisDone;
   WorkerThread.AnalysisCompleted [("cat", 2); ("sat", 1)]
     (WorkerThread.mk_statistics
        (Statistics.mk 3 2 (PyNum.Float (3, 2)) 2 1 (Some ("cat", 2))) 2)].
Proof. by vm_compute. Qed.

Example export_run :
  let word_counts := [("data", 2); ("python", 3); ("code", 1); ("of", 3)] in
  let open_file := fun filename : string =>
    if String.eqb filename "/locked.csv" then Some "Permission denied" else None in
  let writerow := fun (filename : string) (held : list (list CSVExporter.cell))
                      (_ : list CSVExporter.cell) =>
    if (String.eqb filename "full.csv" && (length held =? 2)%nat)%bool
    then Some "No space left on device" else None in
  let close_file := fun (_ : string) (_ : list (list CSVExporter.cell)) =>
    None in
  CSVExporter.export_word_frequency open_file writerow close_file
    word_counts "out.csv" false None CSVExporter.init =
  (true,
   Some [[CSVExporter.Str "word"; CSVExporter.Str "count"];
         [CSVExporter.Str "code"; CSVExporter.Num 1];
         [CSVExporter.Str "data"; CSVExporter.Num 2];
         [CSVExporter.Str "of"; CSVExporter.Num 3];
         [CSVExporter.Str "python"; CSVExporter.Num 3]],
   [CSVExporter.Exported "out.csv"; CSVExporter.ExportedCount 4]) /\
  CSVExporter.export_word_frequency open_file writerow close_file
    word_counts "full.csv" true None CSVExporter.init =
  (false,
   Some [[CSVExporter.Str "word"; CSVExporter.Str "count"];
         [CSVExporter.Str "python"; CSVExporter.Num 3]],
   [CSVExporter.ExportFailed "No space left on device"]) /\
  CSVExporter.export_top_words open_file writerow close_file
    word_counts "out.csv" 2 None CSVExporter.init =
  (true,
   Some [[CSVExporter.Str "word"; CSVExporter.Str "count"];
         [CSVExporter.Str "python"; CSVExporter.Num 3];
         [CSVExporter.Str "of"; CSVExporter.Num 3]],
   [CSVExporter.Exported "out.csv"; CSVExporter.ExportedCount 2]) /\
  CSVExporter.export_top_words open_file writerow close_file
    word_counts "out.csv" (-1) None CSVExporter.init =
  (true,
   Some [[CSVExporter.Str "word"; CSVExporter.Str "count"];
         [CSVExporter.Str "python"; CSVExporter.Num 3];
         [CSVExporter.Str "of"; CSVExporter.Num 3];
         [CSVExporter.Str "data"; CSVExporter.Num 2]],
   [CSVExporter.Exported "out.csv"; CSVExporter.ExportedCount 3]) /\
  CSVExporter.export_filtered_words open_file writerow close_file
    word_counts "/locked.csv" 2 3 CSVExporter.init =
  (false, None, [CSVExporter.ExportFailed "Permission denied"]) /\
  CSVExporter.export_with_statistics open_file writerow close_file
    (fun _ _ => "") word_counts "full.csv" None None CSVExporter.init =
  (false,
   Some [[CSVExporter.Fixed CSVExporter.StatisticsTitle];
         [CSVExporter.Fixed CSVExporter.TotalWordsLabel; CSVExporter.Num 9]],
   [CSVExporter.ExportWithStatisticsFailed "No space left on device"]) /\
  CSVExporter.get_export_summary (fun a b => (a, b)) word_counts =
  Some (CSVExporter.mk_summary 4 9 3 1 (9, 4) ("python", 3)).
Proof. by vm_compute. Qed.
